(** * Unclaimed-property search service: ingestion, lookup and search

    A shallow embedding of [unclaimed_property_app.py] (v0.4): the archive
    reader, the row normaliser and batch loader of [build_database], [sync],
    and the three request handlers [search], [get_property] and
    [start_claim].

    Conventions of the embedding.
    - Python values that the program handles are [pyval]s; text is a
      [string], one character per element, over the characters U+0000 to
      U+00FF.
    - A raised exception is the [Raise] outcome of a [result]; nothing in
      the program catches one, so a raise ends the call.
    - A [DB] is what the two tables of the SQLite file hold; a connection is
      a [Conn] holding the committed image and the working image of the
      open transaction.  What survives a call is the committed image.
    - A buffer handed to [csv.DictReader] is represented by what iterating
      the reader does: the rows it yields, each an ordered dictionary from
      header to cell, and the [csv.Error] it may raise after them. *)

From Stdlib Require Import List String Ascii ZArith NArith Bool Lia.
Import ListNotations.
Open Scope string_scope.
Open Scope Z_scope.

(* ------------------------------------------------------------------ *)
(** ** Exceptions and outcomes *)

Inductive exc : Type :=
| TypeError (msg : string)
| ValueError (msg : string)
| IndexError (msg : string)
| KeyError (msg : string)
| OperationalError (msg : string)
| HTTPException (status_code : Z) (detail : string)
| OverflowError (msg : string)
| CsvError (msg : string)
| BadZipFile (msg : string)
| RuntimeError (msg : string)
| NotImplementedError (msg : string).

(** The class name Python reports for an exception ([csv.Error] is the
    class [Error] of module [_csv]). *)
Definition exc_class (e : exc) : string :=
  match e with
  | TypeError _ => "TypeError"
  | ValueError _ => "ValueError"
  | IndexError _ => "IndexError"
  | KeyError _ => "KeyError"
  | OperationalError _ => "OperationalError"
  | HTTPException _ _ => "HTTPException"
  | OverflowError _ => "OverflowError"
  | CsvError _ => "Error"
  | BadZipFile _ => "BadZipFile"
  | RuntimeError _ => "RuntimeError"
  | NotImplementedError _ => "NotImplementedError"
  end.

Inductive result (A : Type) : Type :=
| Ok (a : A)
| Raise (e : exc).
Arguments Ok {A} a.
Arguments Raise {A} e.

(* ------------------------------------------------------------------ *)
(** ** Python values *)

Inductive pyval : Type :=
| PNone
| PStr (s : string)
| PInt (z : Z).

(** Truth value of an object: [None], [''] and [0] are false. *)
Definition truthy (v : pyval) : bool :=
  match v with
  | PNone => false
  | PStr s => negb (String.eqb s "")
  | PInt z => negb (z =? 0)
  end.

(** [a or b]. *)
Definition py_or (a b : pyval) : pyval := if truthy a then a else b.

Definition digit_char (d : Z) : ascii := ascii_of_N (Z.to_N (48 + d)).

Fixpoint decimal_digits (fuel : nat) (n : Z) (acc : string) : string :=
  match fuel with
  | O => acc
  | S fuel' =>
      let acc' := String (digit_char (n mod 10)) acc in
      if n / 10 =? 0 then acc' else decimal_digits fuel' (n / 10) acc'
  end.

(** [str(z)] for an integer. *)
Definition str_of_int (z : Z) : string :=
  let body := decimal_digits (S (Z.to_nat (Z.log2 (Z.abs z)))) (Z.abs z) "" in
  if z <? 0 then String "-" body else body.

(** What an f-string field [{v}] renders. *)
Definition py_format (v : pyval) : string :=
  match v with
  | PNone => "None"
  | PStr s => s
  | PInt z => str_of_int z
  end.

(** Characters [str.isprintable] accepts, among U+0000 to U+00FF. *)
Definition printable (c : ascii) : bool :=
  let n := N_of_ascii c in
  (((32 <=? n) && (n <=? 126)) || ((161 <=? n) && negb (n =? 173)))%N.

Definition hex_char (d : N) : ascii :=
  ascii_of_N (if (d <? 10)%N then 48 + d else 87 + d)%N.

Definition quote1 : ascii := ascii_of_N 39.
Definition quote2 : ascii := ascii_of_N 34.
Definition backslash : ascii := ascii_of_N 92.

(** One character of [repr(s)] inside the quotes [q]. *)
Definition repr_char (q c : ascii) : string :=
  let n := N_of_ascii c in
  if Ascii.eqb c q || Ascii.eqb c backslash then String backslash (String c "")
  else if (n =? 9)%N then String backslash "t"
  else if (n =? 10)%N then String backslash "n"
  else if (n =? 13)%N then String backslash "r"
  else if printable c then String c ""
  else String backslash
         (String "x" (String (hex_char (n / 16)) (String (hex_char (n mod 16)) ""))).

(** [repr(s)] for a string: in single quotes, unless the text has a single
    quote and no double quote. *)
Definition py_repr (s : string) : string :=
  let cs := list_ascii_of_string s in
  let q := if existsb (Ascii.eqb quote1) cs && negb (existsb (Ascii.eqb quote2) cs)
           then quote2 else quote1 in
  String q (String.concat "" (map (repr_char q) cs) ++ String q "").

(* ------------------------------------------------------------------ *)
(** ** Floats and [float()]

    A float is a binary64 value.  A finite non-zero one is written as the
    decimal number it is exactly, [m * 10^e] with [m] not a multiple of ten;
    [FNum 0 0] is zero and [FNegZero] the zero with the sign bit set. *)

Inductive pyfloat : Type :=
| FNum (m e : Z)
| FNegZero
| FInf (negative : bool)
| FNaN.

Definition float_zero : pyfloat := FNum 0 0.

(** The binary64 nearest to [n / d] for positive [n] and [d], ties to the
    even mantissa: a mantissa [q] of at most 53 bits and the exponent [sh]
    of its last bit, not below that of the subnormals; the value is
    [q * 2^sh]. *)
Definition round_binary64 (n d : Z) : Z * Z :=
  let k0 := Z.log2 n - Z.log2 d in
  let above := if 0 <=? k0 then d * 2 ^ k0 <=? n else d <=? n * 2 ^ (- k0) in
  let k := if above then k0 else k0 - 1 in
  let sh := Z.max k (-1022) - 52 in
  let num := if 0 <=? sh then n else n * 2 ^ (- sh) in
  let den := if 0 <=? sh then d * 2 ^ sh else d in
  let q := num / den in
  let r := num mod den in
  if (den <? 2 * r) || ((den =? 2 * r) && Z.odd q) then (q + 1, sh) else (q, sh).

Fixpoint strip_tens (fuel : nat) (n e : Z) : Z * Z :=
  match fuel with
  | O => (n, e)
  | S fuel' =>
      if n mod 10 =? 0 then strip_tens fuel' (n / 10) (e + 1) else (n, e)
  end.

(** [q * 2^sh], for positive [q], as a decimal without trailing zeros. *)
Definition decimal_of (q sh : Z) : Z * Z :=
  let n := if 0 <=? sh then q * 2 ^ sh else q * 5 ^ (- sh) in
  strip_tens (S (Z.to_nat (Z.log2 n))) n (if 0 <=? sh then 0 else sh).

(** The float nearest to [m * 10^e], for [m >= 0], with the given sign:
    zero when the value rounds to nothing, infinite when it rounds to
    [2^1024] or more. *)
Definition to_float (neg : bool) (m e : Z) : pyfloat :=
  let zero := if neg then FNegZero else float_zero in
  if m =? 0 then zero
  else
    let n := if 0 <=? e then m * 10 ^ e else m in
    let d := if 0 <=? e then 1 else 10 ^ (- e) in
    let '(q, sh) := round_binary64 n d in
    if q =? 0 then zero
    else if (971 <? sh) || ((sh =? 971) && (q =? 2 ^ 53)) then FInf neg
    else let '(dm, de) := decimal_of q sh in FNum (if neg then - dm else dm) de.

(** White space that [float()] strips from either end: the C white space,
    and NEL and NBSP, which it turns into blanks first. *)
Definition is_space (c : ascii) : bool :=
  let n := N_of_ascii c in
  (((9 <=? n) && (n <=? 13)) || (n =? 32) || (n =? 133) || (n =? 160))%N.

Definition digit_val (c : ascii) : option Z :=
  let n := Z.of_N (N_of_ascii c) in
  if (48 <=? n) && (n <=? 57) then Some (n - 48) else None.

Definition lower (c : ascii) : ascii :=
  let n := N_of_ascii c in
  if ((65 <=? n) && (n <=? 90))%N then ascii_of_N (n + 32) else c.

Fixpoint drop_spaces (s : list ascii) : list ascii :=
  match s with
  | c :: s' => if is_space c then drop_spaces s' else s
  | [] => []
  end.

Definition strip (s : list ascii) : list ascii :=
  rev (drop_spaces (rev (drop_spaces s))).

(** The tail [(["_"] digit)*] of a digit part. *)
Fixpoint digit_more (s : list ascii) : list Z * list ascii :=
  match s with
  | c :: s' =>
      match digit_val c with
      | Some d => let '(ds, r) := digit_more s' in (d :: ds, r)
      | None =>
          if Ascii.eqb c "_" then
            match s' with
            | c2 :: s'' =>
                match digit_val c2 with
                | Some d => let '(ds, r) := digit_more s'' in (d :: ds, r)
                | None => ([], s)
                end
            | [] => ([], s)
            end
          else ([], s)
      end
  | [] => ([], [])
  end.

(** [digit (["_"] digit)*]; no digits read when [s] starts with none. *)
Definition digitpart (s : list ascii) : list Z * list ascii :=
  match s with
  | c :: s' =>
      match digit_val c with
      | Some d => let '(ds, r) := digit_more s' in (d :: ds, r)
      | None => ([], s)
      end
  | [] => ([], [])
  end.

Definition is_nil {A} (l : list A) : bool :=
  match l with [] => true | _ => false end.

(** [[digitpart] "." digitpart | digitpart ["."]]. *)
Definition number (s : list ascii) : option (list Z * list Z * list ascii) :=
  let '(ip, r1) := digitpart s in
  match r1 with
  | c :: r2 =>
      if Ascii.eqb c "." then
        let '(fp, r3) := digitpart r2 in
        if is_nil ip && is_nil fp then None else Some (ip, fp, r3)
      else if is_nil ip then None else Some (ip, [], r1)
  | [] => if is_nil ip then None else Some (ip, [], r1)
  end.

Definition read_sign (s : list ascii) : bool * list ascii :=
  match s with
  | c :: s' =>
      if Ascii.eqb c "-" then (true, s')
      else if Ascii.eqb c "+" then (false, s')
      else (false, s)
  | [] => (false, [])
  end.

Definition digits_value (ds : list Z) : Z :=
  fold_left (fun acc d => 10 * acc + d) ds 0.

(** [("e" | "E") [sign] digitpart], or nothing. *)
Definition exponent (s : list ascii) : Z * list ascii :=
  match s with
  | c :: s' =>
      if Ascii.eqb (lower c) "e" then
        let '(neg, s1) := read_sign s' in
        let '(ds, r) := digitpart s1 in
        if is_nil ds then (0, s)
        else ((if neg then - digits_value ds else digits_value ds), r)
      else (0, s)
  | [] => (0, [])
  end.

Definition lowered (s : list ascii) : string :=
  string_of_list_ascii (map lower s).

(** [float(s)] for a string: surrounding white space is ignored; the rest
    is an optional sign followed by [inf], [infinity], [nan] (any case) or a
    decimal number with optional exponent, which is rounded to the nearest
    float.  [None] stands for the [ValueError] Python raises on any other
    text. *)
Definition float_of_str (s : string) : option pyfloat :=
  let '(neg, body) := read_sign (strip (list_ascii_of_string s)) in
  let word := lowered body in
  if String.eqb word "inf" || String.eqb word "infinity" then Some (FInf neg)
  else if String.eqb word "nan" then Some FNaN
  else
    match number body with
    | None => None
    | Some (ip, fp, r) =>
        let '(e, r') := exponent r in
        if is_nil r'
        then Some (to_float neg (digits_value (ip ++ fp))
                            (e - Z.of_nat (List.length fp)))
        else None
    end.

(** The error of [float(s)] on text that is no number. *)
Definition not_a_float (s : string) : exc :=
  ValueError ("could not convert string to float: " ++ py_repr s).

(** [float(v)]. *)
Definition py_float (v : pyval) : result pyfloat :=
  match v with
  | PNone => Raise (TypeError "float() argument must be a string or a real number, not 'NoneType'")
  | PInt z =>
      match to_float (z <? 0) (Z.abs z) 0 with
      | FInf _ => Raise (OverflowError "int too large to convert to float")
      | FNegZero => Ok float_zero
      | f => Ok f
      end
  | PStr s =>
      match float_of_str s with
      | Some f => Ok f
      | None => Raise (not_a_float s)
      end
  end.

(* ------------------------------------------------------------------ *)
(** ** Raw rows and the normalised tuple *)

(** One row as [csv.DictReader] yields it: header cells in file order, each
    bound to the cell text, or to [None] where the line is short.  Cells
    beyond the header are read by no field below and are left out. *)
Definition RawRow : Type := list (string * pyval).

Fixpoint dict_lookup (row : RawRow) (key : string) : option pyval :=
  match row with
  | (k, v) :: row' => if String.eqb k key then Some v else dict_lookup row' key
  | [] => None
  end.

(** [row.get(key, default)]. *)
Definition get_or (row : RawRow) (key : string) (default : pyval) : pyval :=
  match dict_lookup row key with
  | Some v => v
  | None => default
  end.

(** [row.get(key)]. *)
Definition get (row : RawRow) (key : string) : pyval := get_or row key PNone.

(** A value bound to a REAL column: SQLite stores NaN as NULL. *)
Definition bind_real (f : pyfloat) : option pyfloat :=
  match f with
  | FNaN => None
  | _ => Some f
  end.

(** The thirteen columns of [properties], in table order.  Text columns
    hold what Python binds: a string, or [None] for NULL.  [raw_json] holds
    [str(row)], represented by the row it prints. *)
Record PropertyRow : Type := {
  property_id : pyval;
  owner_name : pyval;
  owner_address : pyval;
  owner_city : pyval;
  owner_state : pyval;
  owner_zip : pyval;
  amount_reported : option pyfloat;
  cash_reported : pyval;
  property_type : pyval;
  holder_name : pyval;
  holder_address : pyval;
  reported_date : pyval;
  raw_json : RawRow
}.

(** The tuple appended to [rows] for one source row (lines 121-137).  The
    only element that can raise is the [float(...)] call. *)
Definition normalize (row : RawRow) : result PropertyRow :=
  match py_float (py_or (get_or row "AMOUNT_REPORTED" (PInt 0)) (PInt 0)) with
  | Raise e => Raise e
  | Ok amount =>
      Ok {| property_id := py_or (get row "PROPERTY_ID") (get row "Property ID");
            owner_name :=
              PStr (py_format (get_or row "OWNER_NAME" (PStr "")) ++ " " ++
                    py_format (get_or row "OWNER_FIRST_NAME" (PStr "")));
            owner_address := get_or row "OWNER_ADDRESS" (PStr "");
            owner_city := get_or row "OWNER_CITY" (PStr "");
            owner_state := get_or row "OWNER_STATE" (PStr "");
            owner_zip := get_or row "OWNER_ZIP" (PStr "");
            amount_reported := bind_real amount;
            cash_reported := get_or row "CASH_REPORTED" (PStr "");
            property_type := get_or row "PROPERTY_TYPE" (PStr "");
            holder_name := get_or row "HOLDER_NAME" (PStr "");
            holder_address := get_or row "HOLDER_ADDRESS" (PStr "");
            reported_date := get_or row "REPORTED_DATE" (PStr "");
            raw_json := row |}
  end.

Definition row_smith : RawRow :=
  [("PROPERTY_ID", PStr "P1"); ("OWNER_NAME", PStr "Smith");
   ("AMOUNT_REPORTED", PStr "12.50")].
Definition row_jones : RawRow :=
  [("PROPERTY_ID", PStr "P1"); ("OWNER_NAME", PStr "Jones");
   ("AMOUNT_REPORTED", PStr "99")].

(* ------------------------------------------------------------------ *)
(** ** The database

    [properties] is an ordinary rowid table with a TEXT primary key;
    [properties_fts] is the FTS5 index over four of its columns, keyed by
    the same rowid.  A [DB] is the contents of the two tables.  On a file
    that does not have them yet, the two [CREATE ... IF NOT EXISTS]
    statements of [build_database] create them empty before any row is
    read, so for [build_database] such a file is the [DB] with no rows. *)

Open Scope list_scope.

Record StoreRow : Type := { rowid : Z; cols : PropertyRow }.

Record FtsRow : Type := {
  fts_rowid : Z;
  fts_owner_name : pyval;
  fts_owner_address : pyval;
  fts_owner_city : pyval;
  fts_holder_name : pyval
}.

Record DB : Type := {
  properties : list StoreRow;
  properties_fts : list FtsRow
}.

Definition empty_db : DB := {| properties := []; properties_fts := [] |}.

(** A connection: the committed image and the image the open transaction
    works on. *)
Record Conn : Type := { committed : DB; working : DB }.

(** [sqlite3.connect(DB_PATH)]. *)
Definition connect (db : DB) : Conn := {| committed := db; working := db |}.

(** Closing, or abandoning, a connection drops what was not committed. *)
Definition close (c : Conn) : DB := committed c.

(** Computations on an open connection that may raise. *)
Definition C (A : Type) : Type := Conn -> Conn * result A.

Definition ret {A} (a : A) : C A := fun c => (c, Ok a).
Definition raise {A} (e : exc) : C A := fun c => (c, Raise e).
Definition bind {A B} (m : C A) (k : A -> C B) : C B :=
  fun c =>
    match m c with
    | (c', Ok a) => k a c'
    | (c', Raise e) => (c', Raise e)
    end.
Definition lift {A} (r : result A) : C A := fun c => (c, r).

Notation "x <- m ;; k" := (bind m (fun x => k))
  (at level 61, m at next level, right associativity).
Notation "m ;; k" := (bind m (fun _ => k))
  (at level 61, right associativity).

(** [conn.commit()]. *)
Definition commit : C unit :=
  fun c => ({| committed := working c; working := working c |}, Ok tt).

(** Equality of two primary-key values as the unique index sees it: NULL
    equals nothing, text is compared character by character. *)
Definition same_key (a b : pyval) : bool :=
  match a, b with
  | PStr x, PStr y => String.eqb x y
  | PInt x, PInt y => x =? y
  | _, _ => false
  end.

Definition key_taken (key : pyval) (tbl : list StoreRow) : bool :=
  existsb (fun r => same_key (property_id (cols r)) key) tbl.

(** The rowid SQLite gives a new row: one more than the largest in use. *)
Definition next_rowid (tbl : list StoreRow) : Z :=
  1 + fold_right (fun r acc => Z.max (rowid r) acc) 0 tbl.

(** [INSERT OR IGNORE INTO properties VALUES (?,...,?)] on a database: the
    tuple is skipped when its key is already in use, and appended under the
    next rowid otherwise.  The key column is TEXT in a rowid table, where
    SQLite accepts NULL; a NULL key is in conflict with no row. *)
Definition insert_row (t : PropertyRow) (db : DB) : DB :=
  if key_taken (property_id t) (properties db) then db
  else {| properties :=
            properties db ++ [{| rowid := next_rowid (properties db); cols := t |}];
          properties_fts := properties_fts db |}.

Definition insert_or_ignore (t : PropertyRow) : C unit :=
  fun c => ({| committed := committed c; working := insert_row t (working c) |}, Ok tt).

(** [SELECT IFNULL(MAX(rowid),0) FROM properties_fts]. *)
Definition fts_watermark (db : DB) : Z :=
  fold_right (fun f acc => Z.max (fts_rowid f) acc) 0 (properties_fts db).

Definition fts_project (r : StoreRow) : FtsRow :=
  {| fts_rowid := rowid r;
     fts_owner_name := owner_name (cols r);
     fts_owner_address := owner_address (cols r);
     fts_owner_city := owner_city (cols r);
     fts_holder_name := holder_name (cols r) |}.

(** [INSERT INTO properties_fts(...) SELECT ... FROM properties WHERE rowid >
    (watermark)] as the statement reads. *)
Definition extend_fts_db (db : DB) : DB :=
  {| properties := properties db;
     properties_fts :=
       properties_fts db ++
       map fts_project
           (filter (fun r => fts_watermark db <? rowid r) (properties db)) |}.

Definition extend_fts (_ : unit) : C unit :=
  fun c => ({| committed := committed c; working := extend_fts_db (working c) |}, Ok tt).

Fixpoint for_each {P} (run : P -> C unit) (ps : list P) : C unit :=
  match ps with
  | [] => ret tt
  | p :: ps' => run p ;; for_each run ps'
  end.

(** [cur.executemany(sql, seq_of_parameters)].  The statement is given by
    what one execution does with one parameter tuple.  Both arguments are
    required: a call that passes the statement alone is rejected with
    [TypeError] before anything is executed. *)
Definition executemany {P} (sql : P -> C unit) (seq_of_parameters : option (list P))
  : C unit :=
  match seq_of_parameters with
  | None => raise (TypeError "executemany expected 2 arguments, got 1")
  | Some ps => for_each sql ps
  end.

(* ------------------------------------------------------------------ *)
(** ** Ingestion *)

Definition Table : Type := list RawRow.

(** One element of [csv_buffers] as the loop sees it through
    [csv.DictReader]: iterating the reader yields the rows of [table] in
    order; after the last of them it stops, or raises [csv.Error] with the
    message [reader_error] where the text of the buffer is one the reader
    refuses (a field over the size limit, a stray carriage return). *)
Record Buffer : Type := { table : Table; reader_error : option string }.

(** A buffer that the reader reads through. *)
Definition readable (t : Table) : Buffer :=
  {| table := t; reader_error := None |}.

(** The three statements of lines 139-141 (and 144-146): insert the chunk,
    commit, extend the index.  In the source the third call passes no
    parameter sequence. *)
Definition load_chunk (rows : list PropertyRow) : C unit :=
  executemany insert_or_ignore (Some rows) ;;
  commit ;;
  executemany extend_fts None.

(** The [for i, row in enumerate(reader, 1)] loop; [reader] holds the rows
    still to come and [stop] what follows the last of them, [i] is the
    number of the row at the head of [reader], [rows] the tuples gathered
    since the last flush.  Yields the tuples still pending when the reader
    is exhausted. *)
Fixpoint read_rows (reader : Table) (stop : option string) (i : Z)
         (rows : list PropertyRow) : C (list PropertyRow) :=
  match reader with
  | [] =>
      match stop with
      | None => ret rows
      | Some msg => raise (CsvError msg)
      end
  | row :: reader' =>
      t <- lift (normalize row) ;;
      let rows := rows ++ [t] in
      if i mod 10000 =? 0 then
        load_chunk rows ;;
        read_rows reader' stop (i + 1) []
      else read_rows reader' stop (i + 1) rows
  end.

(** One pass of the [for buf in csv_buffers] body. *)
Definition load_buffer (buf : Buffer) : C unit :=
  rows <- read_rows (table buf) (reader_error buf) 1 [] ;;
  if is_nil rows then ret tt
  else load_chunk rows ;; commit.

Fixpoint load_buffers (csv_buffers : list Buffer) : C unit :=
  match csv_buffers with
  | [] => ret tt
  | buf :: rest => load_buffer buf ;; load_buffers rest
  end.

(** [build_database(csv_buffers)] run against the database: the first
    component is the database afterwards, the second how the call ended. *)
Definition build_database (csv_buffers : list Buffer) (db : DB) : DB * result unit :=
  let '(c, r) := (commit ;; load_buffers csv_buffers) (connect db) in
  (close c, r).

(** An archive as [zipfile.ZipFile] presents it: its members in directory
    order, each with what reading it gives.  That is the member's bytes,
    represented by the buffer that their UTF-8 decoding with replacement (a
    total decoding) makes, or the exception of [zf.open(name)] and [read()]
    on a member that cannot be read ([BadZipFile] on a failed check sum,
    [RuntimeError] on an encrypted member, [NotImplementedError] on an
    unsupported compression). *)
Definition ZipFile : Type := list (string * result Buffer).

Definition namelist (zf : ZipFile) : list string := map fst zf.

(** [zf.open(name).read()]: the directory keeps the last member of a name. *)
Definition zf_read (zf : ZipFile) (name : string) : option (result Buffer) :=
  option_map snd (find (fun m => String.eqb (fst m) name) (rev zf)).

(** [extract_csv_from_zip(zip_bytes)]. *)
Definition extract_csv_from_zip (zip_bytes : ZipFile) : result Buffer :=
  match namelist zip_bytes with
  | [] => Raise (IndexError "list index out of range")
  | name :: _ =>
      match zf_read zip_bytes name with
      | Some read => read
      | None => Raise (KeyError name)
      end
  end.

(** [sync()], given the archive that [download_zip(ALL_FILE)] returned. *)
Definition sync (zip_bytes : ZipFile) (db : DB) : DB * result unit :=
  match extract_csv_from_zip zip_bytes with
  | Raise e => (db, Raise e)
  | Ok buf => build_database [buf] db
  end.

(* ------------------------------------------------------------------ *)
(** ** Request handlers

    The handlers are given on a database that has its two tables, as any
    file has on which [build_database] was started.  What [get_property]
    does on a file without them follows, under [DBFile]. *)

(** A handler runs against the database and leaves a database behind. *)
Definition Api (A : Type) : Type := DB -> DB * result A.

(** [get_conn()]. *)
Definition get_conn (db : DB) : Conn := connect db.

(** [SELECT * FROM properties WHERE property_id = ?] then [fetchone()]. *)
Definition select_by_id (property_id0 : string) (db : DB) : option PropertyRow :=
  option_map cols
    (find (fun r => same_key (property_id (cols r)) (PStr property_id0))
          (properties db)).

(** [get_property(property_id)]. *)
Definition get_property (property_id0 : string) : Api PropertyRow :=
  fun db =>
    let conn := get_conn db in
    let row := select_by_id property_id0 (working conn) in
    let db' := close conn in
    match row with
    | None => (db', Raise (HTTPException 404 "Not found"))
    | Some r => (db', Ok r)
    end.

Record ClaimRequest : Type := {
  claim_property_id : string;
  claimant_name : string;
  claimant_address : string;
  claimant_email : string;
  claimant_phone : option string
}.

(** [start_claim(payload)]: the acknowledgement and the looked-up record. *)
Definition start_claim (payload : ClaimRequest) : Api (string * PropertyRow) :=
  fun db =>
    match get_property (claim_property_id payload) db with
    | (db', Raise e) => (db', Raise e)
    | (db', Ok prop) => (db', Ok ("Claim initiated", prop))
    end.

(** Column names the search statement can refer to without qualification:
    those of [properties] (alias [p]) and of the FTS5 table (alias [fts]),
    whose hidden columns are named after the table itself and [rank]. *)
Definition properties_columns : list string :=
  ["property_id"; "owner_name"; "owner_address"; "owner_city"; "owner_state";
   "owner_zip"; "amount_reported"; "cash_reported"; "property_type";
   "holder_name"; "holder_address"; "reported_date"; "raw_json"].

Definition properties_fts_columns : list string :=
  ["owner_name"; "owner_address"; "owner_city"; "holder_name";
   "properties_fts"; "rank"].

Definition rowid_names : list string := ["rowid"; "oid"; "_rowid_"].

Definition resolves (ident : string) : bool :=
  existsb (String.eqb ident)
          (properties_columns ++ properties_fts_columns ++ rowid_names).

(** [LIMIT n]: a negative bound means no bound. *)
Definition sql_limit {A} (limit : Z) (l : list A) : list A :=
  if limit <? 0 then l else firstn (Z.to_nat limit) l.

Section Search.

(** Whether an FTS5 query text matches an index entry: the engine's
    tokenizer and query language, taken as given. *)
Variable fts5_match : string -> FtsRow -> bool.

Definition joined (q : string) (db : DB) : list PropertyRow :=
  flat_map
    (fun p =>
       if existsb (fun f => (fts_rowid f =? rowid p) && fts5_match q f)
                  (properties_fts db)
       then [cols p] else [])
    (properties db).

(** [SELECT p.* FROM properties p JOIN properties_fts fts ON p.rowid =
    fts.rowid WHERE fts MATCH ? LIMIT ?].  The left operand of [MATCH] is
    the bare identifier [fts]; SQLite resolves it as a column of the
    joined tables and refuses the statement when there is none. *)
Definition select_search (q : string) (limit : Z) (db : DB)
  : result (list PropertyRow) :=
  if resolves "fts" then Ok (sql_limit limit (joined q db))
  else Raise (OperationalError "no such column: fts").

(** [search(q, limit)]. *)
Definition search (q : string) (limit : Z) : Api (list PropertyRow) :=
  fun db =>
    if (String.length q <? 2)%nat
    then (db, Raise (HTTPException 400 "Query too short"))
    else
      let conn := get_conn db in
      match select_search q limit (working conn) with
      | Raise e => (close conn, Raise e)
      | Ok rows => (close conn, Ok rows)
      end.

End Search.

(** The database file at [DB_PATH]: missing, present without the two
    tables (as [sqlite3.connect] leaves a path it had to create), or
    holding them. *)
Inductive DBFile : Type :=
| NoFile
| NoTables
| Built (db : DB).

(** [get_property(property_id)] against the file: [get_conn()] creates a
    missing file, and the SELECT is refused where the table is missing. *)
Definition get_property_file (property_id0 : string) (file : DBFile)
  : DBFile * result PropertyRow :=
  match file with
  | Built db =>
      let '(db', r) := get_property property_id0 db in (Built db', r)
  | NoFile | NoTables =>
      (NoTables, Raise (OperationalError "no such table: properties"))
  end.

(* ------------------------------------------------------------------ *)
(** ** Vocabulary for the statements *)

(** The identifier the normaliser takes from a raw row. *)
Definition row_id (row : RawRow) : pyval :=
  py_or (get row "PROPERTY_ID") (get row "Property ID").

(** Tuples inserted one after the other, as [executemany] does. *)
Definition insert_many (ts : list PropertyRow) (db : DB) : DB :=
  fold_left (fun d t => insert_row t d) ts db.

(** Rows normalised in order; the first failure ends it. *)
Fixpoint normalize_all (rows : Table) : result (list PropertyRow) :=
  match rows with
  | [] => Ok []
  | row :: rows' =>
      match normalize row with
      | Raise e => Raise e
      | Ok t =>
          match normalize_all rows' with
          | Raise e => Raise e
          | Ok ts => Ok (t :: ts)
          end
      end
  end.

Definition is_none {A} (o : option A) : bool :=
  match o with None => true | Some _ => false end.

(** A buffer whose reader yields nothing and raises nothing. *)
Definition idle (buf : Buffer) : bool :=
  is_nil (table buf) && is_none (reader_error buf).

(** The first buffer whose reader yields a row or raises; a buffer with
    nothing in it when there is none. *)
Fixpoint first_buffer (csv_buffers : list Buffer) : Buffer :=
  match csv_buffers with
  | [] => readable []
  | buf :: rest => if idle buf then first_buffer rest else buf
  end.

(** What the reader of a buffer does before the first flush: it yields the
    first 10000 rows; with fewer rows than that, the reader's end, error
    included, is reached. *)
Definition chunk_of (buf : Buffer) : Buffer :=
  {| table := firstn (Z.to_nat 10000) (table buf);
     reader_error :=
       if (Z.to_nat 10000 <=? List.length (table buf))%nat then None
       else reader_error buf |}.

(** What is read before the first flush. *)
Definition first_chunk (csv_buffers : list Buffer) : Buffer :=
  chunk_of (first_buffer csv_buffers).

Definition missing_params : exc :=
  TypeError "executemany expected 2 arguments, got 1".

Definition not_found : exc := HTTPException 404 "Not found".
Definition query_too_short : exc := HTTPException 400 "Query too short".
Definition no_such_table : exc := OperationalError "no such table: properties".

(** How a run over the chunk [b] ends, and what it leaves. *)
Definition run_outcome (b : Buffer) (db : DB) : DB * result unit :=
  match normalize_all (table b) with
  | Raise e => (db, Raise e)
  | Ok ts =>
      match reader_error b with
      | Some msg => (db, Raise (CsvError msg))
      | None =>
          if is_nil (table b) then (db, Ok tt)
          else (insert_many ts db, Raise missing_params)
      end
  end.

Definition smith_record : PropertyRow :=
  {| property_id := PStr "P1"; owner_name := PStr "Smith ";
     owner_address := PStr ""; owner_city := PStr ""; owner_state := PStr "";
     owner_zip := PStr ""; amount_reported := Some (FNum 125 (-1));
     cash_reported := PStr ""; property_type := PStr "";
     holder_name := PStr ""; holder_address := PStr "";
     reported_date := PStr ""; raw_json := row_smith |}.

(** A row with no identifier column, and one with an amount that is not a
    number. *)
Definition row_no_id : RawRow := [("OWNER_NAME", PStr "Doe")].
Definition row_bad_amount : RawRow :=
  [("PROPERTY_ID", PStr "P2"); ("AMOUNT_REPORTED", PStr "abc")].

(** The most permissive index engine: every query matches every entry. *)
Definition match_all (q : string) (f : FtsRow) : bool := true.

(** The connection after a chunk was inserted and committed. *)
Definition flushed (rows : list PropertyRow) (c : Conn) : Conn :=
  {| committed := insert_many rows (working c);
     working := insert_many rows (working c) |}.

(** Records added to the store by a run, and rows it absorbed. *)
Definition inserted (before after : DB) : Z :=
  Z.of_nat (List.length (properties after)) -
  Z.of_nat (List.length (properties before)).

Definition skipped (rows : Table) (before after : DB) : Z :=
  Z.of_nat (List.length rows) - inserted before after.

(** The records of a table stored under the identifier [pid]. *)
Definition matching (pid : string) (tbl : list StoreRow) : list StoreRow :=
  filter (fun r => same_key (property_id (cols r)) (PStr pid)) tbl.

Definition is_null (v : pyval) : bool :=
  match v with PNone => true | _ => false end.

(** The records of a table stored under a NULL identifier. *)
Definition null_keyed (tbl : list StoreRow) : list StoreRow :=
  filter (fun r => is_null (property_id (cols r))) tbl.

(** The database after [n] successive runs of [build_database] over the
    same buffers. *)
Definition runs (n : nat) (csv_buffers : list Buffer) (db : DB) : DB :=
  Nat.iter n (fun d => fst (build_database csv_buffers d)) db.

(** Every cell of the row is text or [None], as [csv.DictReader] makes
    them. *)
Definition cells_are_text (row : RawRow) : Prop :=
  forall k z, ~ In (k, PInt z) row.

(** A row that carries its identifier under the second header spelling,
    beside an empty cell under the first. *)
Definition row_alt_id : RawRow :=
  [("PROPERTY_ID", PStr ""); ("Property ID", PStr "P7");
   ("OWNER_NAME", PStr "Lee")].

(** A row whose amount has a no-break space before the number, and one
    whose amount starts with a file separator. *)
Definition row_nbsp_amount : RawRow :=
  [("PROPERTY_ID", PStr "P3");
   ("AMOUNT_REPORTED", PStr (String (ascii_of_N 160) "12.50"))].
Definition row_fs_amount : RawRow :=
  [("PROPERTY_ID", PStr "P4");
   ("AMOUNT_REPORTED", PStr (String (ascii_of_N 28) "12.50"))].

(* ------------------------------------------------------------------ *)
(** ** The model on small inputs *)

Example float_12_50 : float_of_str "12.50" = Some (FNum 125 (-1)).
Proof. vm_compute. reflexivity. Qed.

Example float_99 : float_of_str "99" = Some (FNum 99 0).
Proof. vm_compute. reflexivity. Qed.

Example float_underscore : float_of_str "1_0" = Some (FNum 1 1).
Proof. vm_compute. reflexivity. Qed.

Example float_bad_underscore : float_of_str "1__0" = None.
Proof. vm_compute. reflexivity. Qed.

Example float_inf : float_of_str "-Infinity" = Some (FInf true).
Proof. vm_compute. reflexivity. Qed.

Example float_comma : float_of_str "1,234" = None.
Proof. vm_compute. reflexivity. Qed.

Example float_dot : float_of_str "." = None.
Proof. vm_compute. reflexivity. Qed.

Example float_abc : float_of_str "abc" = None.
Proof. vm_compute. reflexivity. Qed.

Example float_tenth :
  float_of_str "0.1" =
  Some (FNum 1000000000000000055511151231257827021181583404541015625 (-55)).
Proof. vm_compute. reflexivity. Qed.

Example float_overflow : float_of_str "1e400" = Some (FInf false).
Proof. vm_compute. reflexivity. Qed.

Example float_underflow : float_of_str "-1e-400" = Some FNegZero.
Proof. vm_compute. reflexivity. Qed.

Example float_largest :
  float_of_str "1.797693134862315807e308" =
    float_of_str "1.7976931348623157e308" /\
  float_of_str "1.797693134862315808e308" = Some (FInf false).
Proof. vm_compute. split; reflexivity. Qed.

Example float_tie_to_even :
  float_of_str "9007199254740993" = Some (FNum 9007199254740992 0) /\
  float_of_str "9007199254740995" = Some (FNum 9007199254740996 0).
Proof. vm_compute. split; reflexivity. Qed.

Example float_nbsp :
  option_map amount_reported
    (match normalize row_nbsp_amount with Ok r => Some r | Raise _ => None end)
  = Some (Some (FNum 125 (-1))).
Proof. vm_compute. reflexivity. Qed.

Example float_file_separator :
  normalize row_fs_amount =
  Raise (ValueError "could not convert string to float: '\x1c12.50'").
Proof. vm_compute. reflexivity. Qed.

Example float_int_zero : py_float (PInt 0) = Ok float_zero.
Proof. vm_compute. reflexivity. Qed.

Example repr_quotes :
  py_repr "it's" = String quote2 ("it's" ++ String quote2 "") /\
  py_repr "abc" = "'abc'".
Proof. vm_compute. split; reflexivity. Qed.

Example normalize_smith : normalize row_smith = Ok smith_record.
Proof. vm_compute. reflexivity. Qed.

(* ------------------------------------------------------------------ *)
(** ** The store under [INSERT OR IGNORE] *)

Lemma insert_row_fts t db :
  properties_fts (insert_row t db) = properties_fts db.
Proof. unfold insert_row. destruct (key_taken _ _); reflexivity. Qed.

Lemma insert_many_fts ts : forall db,
  properties_fts (insert_many ts db) = properties_fts db.
Proof.
  induction ts as [|t ts IH]; intros db; simpl; [reflexivity|].
  unfold insert_many in IH. rewrite IH. apply insert_row_fts.
Qed.

Lemma insert_many_cons t ts db :
  insert_many (t :: ts) db = insert_many ts (insert_row t db).
Proof. reflexivity. Qed.

Lemma insert_many_app ts1 ts2 db :
  insert_many (ts1 ++ ts2) db = insert_many ts2 (insert_many ts1 db).
Proof. unfold insert_many. apply fold_left_app. Qed.

Lemma same_key_refl k : k <> PNone -> same_key k k = true.
Proof.
  destruct k; simpl; intros H.
  - congruence.
  - apply String.eqb_refl.
  - apply Z.eqb_refl.
Qed.

Lemma key_taken_app k tbl1 tbl2 :
  key_taken k (tbl1 ++ tbl2) = key_taken k tbl1 || key_taken k tbl2.
Proof. unfold key_taken. apply existsb_app. Qed.

Lemma key_taken_insert_mono k t db :
  key_taken k (properties db) = true ->
  key_taken k (properties (insert_row t db)) = true.
Proof.
  intros H. unfold insert_row. destruct (key_taken (property_id t) _); [exact H|].
  simpl. rewrite key_taken_app, H. reflexivity.
Qed.

Lemma key_taken_insert_self t db :
  property_id t <> PNone ->
  key_taken (property_id t) (properties (insert_row t db)) = true.
Proof.
  intros H. unfold insert_row.
  destruct (key_taken (property_id t) (properties db)) eqn:E; [exact E|].
  simpl. rewrite key_taken_app. simpl. rewrite same_key_refl by exact H.
  apply orb_true_r.
Qed.

Lemma key_taken_insert_many_mono k ts : forall db,
  key_taken k (properties db) = true ->
  key_taken k (properties (insert_many ts db)) = true.
Proof.
  induction ts as [|t ts IH]; intros db H; [exact H|].
  rewrite insert_many_cons. apply IH, key_taken_insert_mono, H.
Qed.

Lemma insert_many_absorbed ts : forall db,
  (forall t, In t ts -> key_taken (property_id t) (properties db) = true) ->
  insert_many ts db = db.
Proof.
  induction ts as [|t ts IH]; intros db H; [reflexivity|].
  rewrite insert_many_cons.
  assert (E : insert_row t db = db).
  { unfold insert_row. rewrite (H t) by (left; reflexivity). reflexivity. }
  rewrite E. apply IH. intros t' Ht'. apply H. right. exact Ht'.
Qed.

Lemma insert_many_takes_keys ts : forall db t,
  In t ts -> property_id t <> PNone ->
  key_taken (property_id t) (properties (insert_many ts db)) = true.
Proof.
  induction ts as [|t0 ts IH]; intros db t Hin Hid; [destruct Hin|].
  rewrite insert_many_cons. destruct Hin as [-> | Hin].
  - apply key_taken_insert_many_mono, key_taken_insert_self, Hid.
  - apply IH; assumption.
Qed.

(** Loading the same keyed tuples a second time changes nothing. *)
Lemma insert_many_idempotent ts db :
  (forall t, In t ts -> property_id t <> PNone) ->
  insert_many ts (insert_many ts db) = insert_many ts db.
Proof.
  intros H. apply insert_many_absorbed. intros t Ht.
  apply insert_many_takes_keys; [exact Ht | apply H, Ht].
Qed.

(* ------------------------------------------------------------------ *)
(** ** Lookup by identifier across inserts *)

Lemma select_by_id_app pid tbl1 tbl2 fts1 fts2 r :
  select_by_id pid {| properties := tbl1; properties_fts := fts1 |} = Some r ->
  select_by_id pid {| properties := tbl1 ++ tbl2; properties_fts := fts2 |} = Some r.
Proof.
  unfold select_by_id. simpl. induction tbl1 as [|x tbl1 IH]; simpl.
  - discriminate.
  - destruct (same_key _ _); [trivial | exact IH].
Qed.

Lemma select_by_id_none_key pid db :
  select_by_id pid db = None -> key_taken (PStr pid) (properties db) = false.
Proof.
  unfold select_by_id, key_taken. destruct db as [tbl fts]. simpl.
  induction tbl as [|x tbl IH]; simpl; [reflexivity|].
  destruct (same_key _ _); [discriminate | exact IH].
Qed.

Lemma select_by_id_snoc_miss pid tbl fts x :
  select_by_id pid {| properties := tbl; properties_fts := fts |} = None ->
  select_by_id pid {| properties := tbl ++ [x]; properties_fts := fts |} =
  if same_key (property_id (cols x)) (PStr pid) then Some (cols x) else None.
Proof.
  unfold select_by_id. simpl. induction tbl as [|y tbl IH]; simpl.
  - intros _. destruct (same_key _ _); reflexivity.
  - destruct (same_key (property_id (cols y)) _); [discriminate | exact IH].
Qed.

Lemma same_key_str k pid : same_key k (PStr pid) = true -> k = PStr pid.
Proof.
  destruct k; simpl; try discriminate.
  intros H. apply String.eqb_eq in H. congruence.
Qed.

(** A record that can be looked up stays as it is under any insert. *)
Lemma select_insert_stable pid t db r :
  select_by_id pid db = Some r -> select_by_id pid (insert_row t db) = Some r.
Proof.
  intros H. unfold insert_row. destruct (key_taken _ _); [exact H|].
  destruct db as [tbl fts]. simpl. eapply select_by_id_app, H.
Qed.

Lemma select_insert_many_stable pid ts : forall db r,
  select_by_id pid db = Some r -> select_by_id pid (insert_many ts db) = Some r.
Proof.
  induction ts as [|t ts IH]; intros db r H; [exact H|].
  rewrite insert_many_cons. apply IH, select_insert_stable, H.
Qed.

(** Inserting into a store that lacks [pid]: the tuple appears when it
    carries [pid], and [pid] stays absent otherwise. *)
Lemma select_insert_fresh pid t db :
  select_by_id pid db = None ->
  select_by_id pid (insert_row t db) =
  if same_key (property_id t) (PStr pid) then Some t else None.
Proof.
  intros H. unfold insert_row.
  destruct (key_taken (property_id t) (properties db)) eqn:E.
  - destruct (same_key (property_id t) (PStr pid)) eqn:K; [|exact H].
    apply same_key_str in K. rewrite K in E.
    rewrite (@select_by_id_none_key pid db H) in E. discriminate.
  - destruct db as [tbl fts]. simpl.
    rewrite select_by_id_snoc_miss by exact H. reflexivity.
Qed.

(** Of the tuples loaded into a store that lacks [pid], the one that can be
    looked up afterwards is the earliest carrying [pid]. *)
Lemma select_insert_many_first pid ts : forall db r,
  select_by_id pid db = None ->
  select_by_id pid (insert_many ts db) = Some r ->
  exists l1 l2,
    ts = l1 ++ r :: l2 /\ property_id r = PStr pid /\
    (forall t, In t l1 -> property_id t <> PStr pid).
Proof.
  induction ts as [|t ts IH]; intros db r Hnone Hsome.
  - simpl in Hsome. congruence.
  - rewrite insert_many_cons in Hsome.
    pose proof (@select_insert_fresh pid t db Hnone) as Hf.
    destruct (same_key (property_id t) (PStr pid)) eqn:K.
    + rewrite (@select_insert_many_stable pid ts _ _ Hf) in Hsome.
      injection Hsome as <-. exists [], ts. split; [reflexivity|].
      split; [apply same_key_str, K|]. intros t' [].
    + destruct (IH _ _ Hf Hsome) as (l1 & l2 & -> & Hid & Hpre).
      exists (t :: l1), l2. split; [reflexivity|]. split; [exact Hid|].
      intros t' [<- | Hin]; [|apply Hpre, Hin].
      intros Heq. rewrite Heq in K. simpl in K.
      rewrite String.eqb_refl in K. discriminate.
Qed.

(* ------------------------------------------------------------------ *)
(** ** What one run of the loader does *)

Lemma for_each_insert ts : forall c,
  for_each insert_or_ignore ts c =
  ({| committed := committed c; working := insert_many ts (working c) |}, Ok tt).
Proof.
  induction ts as [|t ts IH]; intros c.
  - destruct c; reflexivity.
  - simpl. unfold bind. simpl. rewrite IH. reflexivity.
Qed.

(** A chunk is inserted and committed, and then the index statement is
    refused for want of its parameter sequence. *)
Lemma load_chunk_run rows c :
  load_chunk rows c = (flushed rows c, Raise missing_params).
Proof.
  unfold load_chunk, executemany, bind. rewrite for_each_insert. reflexivity.
Qed.

Lemma read_rows_cons row reader stop i rows c :
  read_rows (row :: reader) stop i rows c =
  match normalize row with
  | Raise e => (c, Raise e)
  | Ok t =>
      if i mod 10000 =? 0
      then (flushed (rows ++ [t]) c, Raise missing_params)
      else read_rows reader stop (i + 1) (rows ++ [t]) c
  end.
Proof.
  cbn [read_rows]. unfold bind, lift.
  destruct (normalize row) as [t|e]; [|reflexivity].
  destruct (i mod 10000 =? 0); [|reflexivity].
  rewrite load_chunk_run. reflexivity.
Qed.

Lemma normalize_all_cons row rows :
  normalize_all (row :: rows) =
  match normalize row with
  | Raise e => Raise e
  | Ok t =>
      match normalize_all rows with
      | Raise e => Raise e
      | Ok ts => Ok (t :: ts)
      end
  end.
Proof. reflexivity. Qed.

(** The row loop, started at row number [i] with [rows] pending: it reads up
    to the next multiple of 10000; a row that fails to normalise ends the
    run there, a full chunk is flushed (and the flush raises), and a reader
    that ends first raises its error or leaves its tuples pending. *)
Lemma read_rows_spec reader stop : forall i rows c,
  1 <= i <= 10000 ->
  read_rows reader stop i rows c =
  match normalize_all (firstn (Z.to_nat (10001 - i)) reader) with
  | Raise e => (c, Raise e)
  | Ok ts =>
      if (Z.to_nat (10001 - i) <=? List.length reader)%nat
      then (flushed (rows ++ ts) c, Raise missing_params)
      else
        match stop with
        | Some msg => (c, Raise (CsvError msg))
        | None => (c, Ok (rows ++ ts))
        end
  end.
Proof.
  induction reader as [|row reader IH]; intros i rows c Hi.
  - rewrite firstn_nil. simpl normalize_all.
    replace (Z.to_nat (10001 - i)) with (S (Z.to_nat (10000 - i))) by lia.
    simpl. rewrite app_nil_r. destruct stop; reflexivity.
  - rewrite read_rows_cons.
    replace (Z.to_nat (10001 - i)) with (S (Z.to_nat (10000 - i))) by lia.
    rewrite firstn_cons, normalize_all_cons.
    destruct (normalize row) as [t|e]; [|reflexivity].
    destruct (i mod 10000 =? 0) eqn:Em.
    + apply Z.eqb_eq in Em.
      assert (i = 10000).
      { destruct (Z.eq_dec i 10000) as [E|E]; [exact E|].
        rewrite Z.mod_small in Em by lia. lia. }
      subst i. simpl. reflexivity.
    + apply Z.eqb_neq in Em.
      assert (i < 10000).
      { destruct (Z.eq_dec i 10000) as [E|E]; [|lia].
        subst i. exfalso. apply Em. reflexivity. }
      rewrite IH by lia.
      replace (10001 - (i + 1)) with (10000 - i) by lia.
      destruct (normalize_all (firstn (Z.to_nat (10000 - i)) reader)) as [ts|e];
        [|reflexivity].
      change (S (Z.to_nat (10000 - i)) <=? List.length (row :: reader))%nat
        with (Z.to_nat (10000 - i) <=? List.length reader)%nat.
      rewrite <- app_assoc. reflexivity.
Qed.

Lemma normalize_all_length rows : forall ts,
  normalize_all rows = Ok ts -> List.length ts = List.length rows.
Proof.
  induction rows as [|row rows IH]; intros ts H.
  - injection H as <-. reflexivity.
  - rewrite normalize_all_cons in H.
    destruct (normalize row); [|discriminate].
    destruct (normalize_all rows) as [ts'|]; [|discriminate].
    injection H as <-. simpl. f_equal. apply IH. reflexivity.
Qed.

Lemma normalize_all_nil rows ts :
  normalize_all rows = Ok ts -> is_nil ts = is_nil rows.
Proof.
  intros H. apply normalize_all_length in H.
  destruct ts, rows; simpl in *; congruence.
Qed.

(** The outcome of a run on a connection. *)
Lemma load_buffer_run buf c :
  load_buffer buf c =
  match normalize_all (table (chunk_of buf)) with
  | Raise e => (c, Raise e)
  | Ok ts =>
      match reader_error (chunk_of buf) with
      | Some msg => (c, Raise (CsvError msg))
      | None =>
          if is_nil (table (chunk_of buf)) then (c, Ok tt)
          else (flushed ts c, Raise missing_params)
      end
  end.
Proof.
  unfold load_buffer, bind. rewrite read_rows_spec by lia.
  change (10001 - 1) with 10000. unfold chunk_of. cbn [table reader_error].
  destruct (normalize_all (firstn (Z.to_nat 10000) (table buf))) as [ts|e] eqn:En;
    [|reflexivity].
  pose proof (normalize_all_nil _ _ En) as Hnil.
  destruct (Z.to_nat 10000 <=? List.length (table buf))%nat eqn:El.
  - destruct (table buf) as [|row tbl]; [discriminate|].
    change (Z.to_nat 10000) with (S (Z.to_nat 9999)).
    rewrite firstn_cons. reflexivity.
  - destruct (reader_error buf) as [msg|]; [reflexivity|].
    change ([] ++ ts) with ts. rewrite <- Hnil.
    destruct ts as [|t ts]; [reflexivity|].
    cbn [is_nil]. unfold bind. rewrite load_chunk_run. reflexivity.
Qed.

Lemma chunk_of_idle buf : idle (chunk_of buf) = idle buf.
Proof.
  unfold idle, chunk_of. cbn [table reader_error].
  destruct (table buf) as [|row tbl].
  - rewrite firstn_nil. reflexivity.
  - change (Z.to_nat 10000) with (S (Z.to_nat 9999)).
    rewrite firstn_cons. reflexivity.
Qed.

Lemma load_buffer_idle buf c : idle buf = true -> load_buffer buf c = (c, Ok tt).
Proof.
  intros H. rewrite load_buffer_run. rewrite <- chunk_of_idle in H.
  unfold idle in H. apply andb_prop in H. destruct H as [Ht He].
  destruct (table (chunk_of buf)); [|discriminate].
  destruct (reader_error (chunk_of buf)); [discriminate|]. reflexivity.
Qed.

Lemma load_buffer_busy buf c :
  idle buf = false ->
  load_buffer buf c =
  match normalize_all (table (chunk_of buf)) with
  | Raise e => (c, Raise e)
  | Ok ts =>
      match reader_error (chunk_of buf) with
      | Some msg => (c, Raise (CsvError msg))
      | None => (flushed ts c, Raise missing_params)
      end
  end.
Proof.
  intros H. rewrite load_buffer_run. rewrite <- chunk_of_idle in H.
  unfold idle in H.
  destruct (normalize_all (table (chunk_of buf))); [|reflexivity].
  destruct (reader_error (chunk_of buf)); [reflexivity|].
  destruct (table (chunk_of buf)); [discriminate | reflexivity].
Qed.

Lemma first_buffer_idle (csv_buffers : list Buffer) :
  idle (first_buffer csv_buffers) = true <->
  forall buf, In buf csv_buffers -> idle buf = true.
Proof.
  induction csv_buffers as [|buf bufs IH]; simpl.
  - split; [intros _ buf [] | reflexivity].
  - destruct (idle buf) eqn:E.
    + rewrite IH. split.
      * intros H b [<- | Hb]; [exact E | apply H, Hb].
      * intros H b Hb. apply H. right. exact Hb.
    + split; [congruence|]. intros H.
      rewrite (H buf (or_introl eq_refl)) in E. discriminate.
Qed.

Lemma load_buffers_run csv_buffers : forall c,
  load_buffers csv_buffers c =
  match normalize_all (table (first_chunk csv_buffers)) with
  | Raise e => (c, Raise e)
  | Ok ts =>
      match reader_error (first_chunk csv_buffers) with
      | Some msg => (c, Raise (CsvError msg))
      | None =>
          if is_nil (table (first_chunk csv_buffers)) then (c, Ok tt)
          else (flushed ts c, Raise missing_params)
      end
  end.
Proof.
  induction csv_buffers as [|buf rest IH]; intros c; [reflexivity|].
  cbn [load_buffers]. unfold bind, first_chunk. cbn [first_buffer].
  destruct (idle buf) eqn:E.
  - rewrite (load_buffer_idle _ _ E). apply IH.
  - rewrite (load_buffer_busy _ _ E).
    pose proof (chunk_of_idle buf) as Hc. rewrite E in Hc. unfold idle in Hc.
    destruct (normalize_all (table (chunk_of buf))); [|reflexivity].
    destruct (reader_error (chunk_of buf)); [reflexivity|].
    destruct (table (chunk_of buf)); [discriminate | reflexivity].
Qed.

(** The whole call, by what is read before the first flush: a row that does
    not normalise ends it with nothing written; so does an error of the
    reader; with no row and no error it returns and leaves the database as
    it was; otherwise the rows are committed and the call ends in the
    [TypeError] of the index statement. *)
Lemma build_database_run csv_buffers db :
  build_database csv_buffers db = run_outcome (first_chunk csv_buffers) db.
Proof.
  unfold build_database, bind, run_outcome. cbn [commit connect working].
  rewrite load_buffers_run.
  destruct (normalize_all (table (first_chunk csv_buffers))); [|reflexivity].
  destruct (reader_error (first_chunk csv_buffers)); [reflexivity|].
  destruct (is_nil (table (first_chunk csv_buffers))); reflexivity.
Qed.

Lemma get_property_eq pid db :
  get_property pid db =
  (db, match select_by_id pid db with
       | Some r => Ok r
       | None => Raise not_found
       end).
Proof.
  unfold get_property, get_conn, connect, close. simpl.
  destruct (select_by_id pid db); reflexivity.
Qed.

Lemma normalize_id row r : normalize row = Ok r -> property_id r = row_id row.
Proof.
  unfold normalize. destruct (py_float _); [|discriminate].
  intros H. injection H as <-. reflexivity.
Qed.

Lemma normalize_all_split l1 : forall rows r l2,
  normalize_all rows = Ok (l1 ++ r :: l2) ->
  exists pre row post,
    rows = pre ++ row :: post /\ normalize_all pre = Ok l1 /\
    normalize row = Ok r.
Proof.
  induction l1 as [|t l1 IH]; intros rows r l2 H.
  - destruct rows as [|row rows]; [discriminate|].
    rewrite normalize_all_cons in H.
    destruct (normalize row) as [t|] eqn:En; [|discriminate].
    destruct (normalize_all rows); [|discriminate].
    injection H as -> _. exists [], row, rows. auto.
  - destruct rows as [|row0 rows]; [discriminate|].
    rewrite normalize_all_cons in H.
    destruct (normalize row0) as [t0|] eqn:En; [|discriminate].
    destruct (normalize_all rows) as [ts|] eqn:Ea; [|discriminate].
    injection H as -> ->.
    destruct (IH _ _ _ Ea) as (pre & row & post & -> & Hpre & Hrow).
    exists (row0 :: pre), row, post. split; [reflexivity|]. split; [|exact Hrow].
    rewrite normalize_all_cons, En, Hpre. reflexivity.
Qed.

Lemma normalize_all_in pre : forall l1 row,
  normalize_all pre = Ok l1 -> In row pre ->
  exists t, In t l1 /\ normalize row = Ok t.
Proof.
  induction pre as [|row0 pre IH]; intros l1 row H Hin; [destruct Hin|].
  rewrite normalize_all_cons in H.
  destruct (normalize row0) as [t0|] eqn:En; [|discriminate].
  destruct (normalize_all pre) as [ts|]; [|discriminate].
  injection H as <-. destruct Hin as [<- | Hin].
  - exists t0. split; [left; reflexivity | exact En].
  - destruct (IH ts row eq_refl Hin) as (t & Ht & Hn).
    exists t. split; [right; exact Ht | exact Hn].
Qed.

Lemma normalize_all_origin rows : forall ts t,
  normalize_all rows = Ok ts -> In t ts ->
  exists row, In row rows /\ normalize row = Ok t.
Proof.
  intros ts t Hn Ht.
  destruct (in_split _ _ Ht) as (l1 & l2 & ->).
  destruct (normalize_all_split _ _ _ _ Hn) as (pre & row & post & -> & _ & Hrow).
  exists row. split; [apply in_elt | exact Hrow].
Qed.

(** Normalising a table that splits at a row: the tuples split with it. *)
Lemma normalize_all_at pre : forall row post ts,
  normalize_all (pre ++ row :: post) = Ok ts ->
  exists l1 r l2,
    ts = l1 ++ r :: l2 /\ normalize_all pre = Ok l1 /\ normalize row = Ok r.
Proof.
  induction pre as [|row0 pre IH]; intros row post ts H.
  - simpl app in H. rewrite normalize_all_cons in H.
    destruct (normalize row) as [r|]; [|discriminate].
    destruct (normalize_all post) as [l2|]; [|discriminate].
    injection H as <-. exists [], r, l2. auto.
  - simpl app in H. rewrite normalize_all_cons in H.
    destruct (normalize row0) as [t0|] eqn:En; [|discriminate].
    destruct (normalize_all (pre ++ row :: post)) as [ts'|] eqn:Ea; [|discriminate].
    injection H as <-.
    destruct (IH _ _ _ Ea) as (l1 & r & l2 & -> & Hpre & Hrow).
    exists (t0 :: l1), r, l2. split; [reflexivity|]. split; [|exact Hrow].
    rewrite normalize_all_cons, En, Hpre. reflexivity.
Qed.

(** A row that fails to normalise after rows that do fails the table. *)
Lemma normalize_all_fails pre : forall row post l1 e,
  normalize_all pre = Ok l1 -> normalize row = Raise e ->
  normalize_all (pre ++ row :: post) = Raise e.
Proof.
  induction pre as [|row0 pre IH]; intros row post l1 e Hpre Hrow.
  - simpl app. rewrite normalize_all_cons, Hrow. reflexivity.
  - simpl app. rewrite normalize_all_cons in *.
    destruct (normalize row0); [|discriminate].
    destruct (normalize_all pre) as [ts|] eqn:Ea; [|discriminate].
    rewrite (IH row post ts e eq_refl Hrow). reflexivity.
Qed.

Lemma first_buffer_concat (csv_buffers : list Buffer) :
  exists rest,
    List.concat (map table csv_buffers) = table (first_buffer csv_buffers) ++ rest.
Proof.
  induction csv_buffers as [|buf bufs IH].
  - exists []. reflexivity.
  - cbn [first_buffer map List.concat]. destruct (idle buf) eqn:E.
    + unfold idle in E. destruct (table buf); [exact IH | discriminate].
    + exists (List.concat (map table bufs)). reflexivity.
Qed.

Lemma first_chunk_concat (csv_buffers : list Buffer) :
  exists rest,
    List.concat (map table csv_buffers) = table (first_chunk csv_buffers) ++ rest.
Proof.
  destruct (first_buffer_concat csv_buffers) as [rest H].
  exists (skipn (Z.to_nat 10000) (table (first_buffer csv_buffers)) ++ rest).
  unfold first_chunk, chunk_of. cbn [table].
  rewrite app_assoc, firstn_skipn. exact H.
Qed.

Lemma in_first_chunk_concat (csv_buffers : list Buffer) row :
  In row (table (first_chunk csv_buffers)) ->
  In row (List.concat (map table csv_buffers)).
Proof.
  intros H. destruct (first_chunk_concat csv_buffers) as [rest ->].
  apply in_or_app. left. exact H.
Qed.

Lemma first_chunk_length (csv_buffers : list Buffer) :
  Z.of_nat (List.length (table (first_chunk csv_buffers))) <= 10000.
Proof.
  unfold first_chunk, chunk_of. cbn [table].
  pose proof (firstn_le_length (Z.to_nat 10000)
                (table (first_buffer csv_buffers))).
  lia.
Qed.

Lemma first_chunk_single (t : Table) :
  Z.of_nat (List.length t) < 10000 ->
  first_chunk [readable t] = readable t.
Proof.
  intros H. unfold first_chunk. cbn [first_buffer].
  assert (E : chunk_of (readable t) = readable t).
  { unfold chunk_of, readable. cbn [table reader_error].
    rewrite firstn_all2 by lia.
    destruct (Z.to_nat 10000 <=? List.length t)%nat; reflexivity. }
  destruct (idle (readable t)) eqn:Ei; [|exact E].
  unfold idle in Ei. cbn [table readable] in Ei.
  destruct t; [reflexivity | discriminate].
Qed.

(* ------------------------------------------------------------------ *)
(** ** The records under one identifier *)

Lemma matching_app pid tbl1 tbl2 :
  matching pid (tbl1 ++ tbl2) = matching pid tbl1 ++ matching pid tbl2.
Proof. unfold matching. apply filter_app. Qed.

Lemma key_taken_matching pid tbl :
  key_taken (PStr pid) tbl = negb (is_nil (matching pid tbl)).
Proof.
  unfold key_taken, matching. induction tbl as [|x tbl IH]; simpl.
  - reflexivity.
  - destruct (same_key _ _); simpl; [reflexivity | exact IH].
Qed.

Lemma key_free_matching pid tbl :
  key_taken (PStr pid) tbl = false -> matching pid tbl = [].
Proof.
  rewrite key_taken_matching. destruct (matching pid tbl); [reflexivity|].
  discriminate.
Qed.

Lemma select_by_id_matching pid db :
  select_by_id pid db =
  option_map cols (hd_error (matching pid (properties db))).
Proof.
  unfold select_by_id, matching. induction (properties db) as [|x tbl IH]; simpl.
  - reflexivity.
  - destruct (same_key _ _); [reflexivity | exact IH].
Qed.

(** One insert, seen from the identifier [pid]: a tuple of another
    identifier changes nothing; a tuple of this one is stored when none is,
    and skipped when one is. *)
Lemma matching_insert_row pid t db :
  matching pid (properties (insert_row t db)) =
  if same_key (property_id t) (PStr pid)
  then match matching pid (properties db) with
       | [] => [{| rowid := next_rowid (properties db); cols := t |}]
       | l => l
       end
  else matching pid (properties db).
Proof.
  unfold insert_row.
  destruct (same_key (property_id t) (PStr pid)) eqn:K.
  - pose proof (same_key_str _ _ K) as Hid.
    replace (key_taken (property_id t) (properties db))
      with (key_taken (PStr pid) (properties db)) by (rewrite Hid; reflexivity).
    rewrite key_taken_matching.
    destruct (matching pid (properties db)) as [|y l] eqn:Em; simpl.
    + rewrite matching_app, Em. unfold matching. simpl. rewrite K. reflexivity.
    + exact Em.
  - destruct (key_taken (property_id t) (properties db)); [reflexivity|].
    simpl. rewrite matching_app. unfold matching at 2. simpl. rewrite K.
    apply app_nil_r.
Qed.

Lemma matching_insert_many_taken pid ts : forall db,
  matching pid (properties db) <> [] ->
  matching pid (properties (insert_many ts db)) = matching pid (properties db).
Proof.
  induction ts as [|t ts IH]; intros db H; [reflexivity|].
  rewrite insert_many_cons.
  assert (E : matching pid (properties (insert_row t db)) =
              matching pid (properties db)).
  { rewrite matching_insert_row.
    destruct (same_key _ _); [|reflexivity].
    destruct (matching pid (properties db)); [congruence | reflexivity]. }
  rewrite IH; rewrite E; [reflexivity | exact H].
Qed.

Lemma matching_insert_many_other pid ts : forall db,
  (forall t, In t ts -> property_id t <> PStr pid) ->
  matching pid (properties (insert_many ts db)) = matching pid (properties db).
Proof.
  induction ts as [|t ts IH]; intros db H; [reflexivity|].
  rewrite insert_many_cons, IH.
  - rewrite matching_insert_row.
    destruct (same_key (property_id t) (PStr pid)) eqn:K; [|reflexivity].
    apply same_key_str in K. exfalso. apply (H t (or_introl eq_refl) K).
  - intros t' Ht'. apply H. right. exact Ht'.
Qed.

(* ------------------------------------------------------------------ *)
(** ** Deduplication by identifier *)

(** C1.  First write wins.  For every run of [build_database], database
    and identifier:
    - a record that [get_property] returns before the run is returned
      unchanged after it, and the run stores nothing else under its
      identifier, whatever rows it brings;
    - when the identifier is not in the store and the run commits its rows
      (they are read without error before the first flush and all
      normalise), the earliest of them that carries the identifier is
      stored: [get_property] returns its normalisation, field for field,
      and it is the only record under the identifier, so every later row
      with the identifier has been discarded;
    - a record that becomes retrievable through the run is in every case
      the normalisation of the earliest input row with its identifier. *)
Theorem first_commit_wins : forall (csv_buffers : list Buffer) db pid,
  (forall r,
     snd (get_property pid db) = Ok r ->
     snd (get_property pid (fst (build_database csv_buffers db))) = Ok r /\
     matching pid (properties (fst (build_database csv_buffers db))) =
       matching pid (properties db)) /\
  (forall ts pre row post,
     snd (get_property pid db) = Raise not_found ->
     reader_error (first_chunk csv_buffers) = None ->
     normalize_all (table (first_chunk csv_buffers)) = Ok ts ->
     table (first_chunk csv_buffers) = pre ++ row :: post ->
     row_id row = PStr pid ->
     (forall row', In row' pre -> row_id row' <> PStr pid) ->
     exists r,
       normalize row = Ok r /\
       snd (get_property pid (fst (build_database csv_buffers db))) = Ok r /\
       map cols (matching pid (properties (fst (build_database csv_buffers db))))
         = [r]) /\
  (forall r,
     snd (get_property pid db) = Raise not_found ->
     snd (get_property pid (fst (build_database csv_buffers db))) = Ok r ->
     exists pre row post,
       List.concat (map table csv_buffers) = pre ++ row :: post /\
       row_id row = PStr pid /\
       normalize row = Ok r /\
       forall row', In row' pre -> row_id row' <> PStr pid).
Proof.
  intros csv_buffers db pid. rewrite !get_property_eq. cbn [snd].
  rewrite build_database_run. unfold run_outcome. split; [|split].
  - intros r H. destruct (select_by_id pid db) as [r0|] eqn:E; [|discriminate].
    injection H as ->.
    assert (Hm : matching pid (properties db) <> []).
    { intros Hm. rewrite select_by_id_matching, Hm in E. discriminate. }
    destruct (normalize_all (table (first_chunk csv_buffers))) as [ts|e];
      [|cbn [fst]; rewrite E; split; reflexivity].
    destruct (reader_error (first_chunk csv_buffers));
      [cbn [fst]; rewrite E; split; reflexivity|].
    destruct (is_nil (table (first_chunk csv_buffers)));
      [cbn [fst]; rewrite E; split; reflexivity|].
    cbn [fst]. split.
    + rewrite (select_insert_many_stable pid ts db r E). reflexivity.
    + apply matching_insert_many_taken, Hm.
  - intros ts pre row post H Herr Hn Hsplit Hid Hpre.
    destruct (select_by_id pid db) eqn:E; [discriminate|]. clear H.
    rewrite Hn, Herr, Hsplit.
    replace (is_nil (pre ++ row :: post)) with false by (destruct pre; reflexivity).
    cbn [fst]. rewrite Hsplit in Hn.
    destruct (normalize_all_at _ _ _ _ Hn) as (l1 & r & l2 & -> & Hl1 & Hrow).
    exists r. split; [exact Hrow|].
    assert (Hr : property_id r = PStr pid).
    { rewrite (normalize_id _ _ Hrow). exact Hid. }
    assert (Hm0 : matching pid (properties db) = []).
    { apply key_free_matching, select_by_id_none_key, E. }
    assert (Hm1 : matching pid (properties (insert_many l1 db)) = []).
    { rewrite matching_insert_many_other; [exact Hm0|].
      intros t Ht Heq.
      destruct (normalize_all_origin _ _ _ Hl1 Ht) as (row' & Hin & Hn').
      apply (Hpre row' Hin). rewrite <- (normalize_id _ _ Hn'). exact Heq. }
    assert (Hm2 : matching pid (properties (insert_row r (insert_many l1 db))) =
                  [{| rowid := next_rowid (properties (insert_many l1 db));
                      cols := r |}]).
    { rewrite matching_insert_row, Hr. simpl. rewrite String.eqb_refl, Hm1.
      reflexivity. }
    assert (Hm3 : matching pid (properties (insert_many (l1 ++ r :: l2) db)) =
                  [{| rowid := next_rowid (properties (insert_many l1 db));
                      cols := r |}]).
    { rewrite insert_many_app, insert_many_cons.
      rewrite matching_insert_many_taken; rewrite Hm2; [reflexivity | discriminate]. }
    rewrite select_by_id_matching, Hm3. split; reflexivity.
  - intros r H. destruct (select_by_id pid db) eqn:E; [discriminate|]. clear H.
    destruct (normalize_all (table (first_chunk csv_buffers))) as [ts|e] eqn:En;
      [|cbn [fst]; rewrite E; discriminate].
    destruct (reader_error (first_chunk csv_buffers));
      [cbn [fst]; rewrite E; discriminate|].
    destruct (is_nil (table (first_chunk csv_buffers)));
      [cbn [fst]; rewrite E; discriminate|].
    cbn [fst].
    destruct (select_by_id pid (insert_many ts db)) as [r1|] eqn:E1;
      [|discriminate].
    intros H. injection H as ->.
    destruct (select_insert_many_first pid ts db r E E1)
      as (l1 & l2 & -> & Hid & Hpre).
    destruct (normalize_all_split _ _ _ _ En)
      as (pre & row & post & Hchunk & Hl1 & Hrow).
    destruct (first_chunk_concat csv_buffers) as [rest Hrest].
    exists pre, row, (post ++ rest). split.
    { rewrite Hrest, Hchunk, <- app_assoc. reflexivity. }
    split. { rewrite <- (normalize_id _ _ Hrow). exact Hid. }
    split; [exact Hrow|].
    intros row' Hin Heq.
    destruct (normalize_all_in _ _ _ Hl1 Hin) as (t' & Ht & Hn).
    apply (Hpre t' Ht). rewrite (normalize_id _ _ Hn). exact Heq.
Qed.

Lemma first_commit_wins_witness :
  (snd (get_property "P1"
          (fst (build_database [readable [row_jones]]
                  (fst (build_database [readable [row_smith; row_jones]]
                          empty_db)))))
   = Ok smith_record /\
   matching "P1"
     (properties
        (fst (build_database [readable [row_jones]]
                (fst (build_database [readable [row_smith; row_jones]]
                        empty_db)))))
   = matching "P1"
       (properties (fst (build_database [readable [row_smith; row_jones]]
                           empty_db)))) /\
  (exists r,
     normalize row_smith = Ok r /\
     snd (get_property "P1"
            (fst (build_database
                    [readable [row_alt_id; row_smith; row_jones; row_smith]]
                    empty_db))) = Ok r /\
     map cols
       (matching "P1"
          (properties
             (fst (build_database
                     [readable [row_alt_id; row_smith; row_jones; row_smith]]
                     empty_db)))) = [r]).
Proof.
  split.
  - apply (proj1 (first_commit_wins [readable [row_jones]]
                    (fst (build_database [readable [row_smith; row_jones]]
                            empty_db))
                    "P1")).
    vm_compute. reflexivity.
  - destruct (normalize_all
                (table (first_chunk
                          [readable [row_alt_id; row_smith; row_jones; row_smith]])))
      as [ts|e] eqn:En; [|vm_compute in En; discriminate].
    apply (proj1 (proj2 (first_commit_wins
                           [readable [row_alt_id; row_smith; row_jones; row_smith]]
                           empty_db "P1"))
             ts [row_alt_id] row_smith [row_jones; row_smith]).
    + vm_compute. reflexivity.
    + vm_compute. reflexivity.
    + exact En.
    + vm_compute. reflexivity.
    + vm_compute. reflexivity.
    + intros row' [<- | []]. vm_compute. discriminate.
Defined.

(* ------------------------------------------------------------------ *)
(** ** Store and index *)

(** C2. The loader never adds an index entry: whatever it commits, the
    index is the one it found.  On a fresh database the one-row table
    [row_smith] is committed and the run ends in the [TypeError] of the
    index statement; a following run over no rows completes; the record is
    in the store, the index is empty, and [search] for a word of the
    record returns no record. *)
Theorem committed_record_left_unindexed :
  forall (fts5_match : string -> FtsRow -> bool) (limit : Z),
  (forall (csv_buffers : list Buffer) db,
     properties_fts (fst (build_database csv_buffers db)) = properties_fts db) /\
  let run1 := build_database [readable [row_smith]] empty_db in
  let run2 := build_database [] (fst run1) in
  snd run1 = Raise missing_params /\
  snd run2 = Ok tt /\
  snd (get_property "P1" (fst run2)) = Ok smith_record /\
  properties_fts (fst run2) = [] /\
  snd (search fts5_match "Smith" limit (fst run2)) =
    Raise (OperationalError "no such column: fts").
Proof.
  intros fts5_match limit. split.
  - intros csv_buffers db. rewrite build_database_run. unfold run_outcome.
    destruct (normalize_all (table (first_chunk csv_buffers))); [|reflexivity].
    destruct (reader_error (first_chunk csv_buffers)); [reflexivity|].
    destruct (is_nil (table (first_chunk csv_buffers))); simpl;
      [reflexivity | apply insert_many_fts].
  - repeat split; vm_compute; reflexivity.
Qed.

(* ------------------------------------------------------------------ *)
(** ** Re-running ingestion *)

(** C3, as stated, fails: a row without identifier is stored with a NULL
    key, which never conflicts, so a second run over the same archive
    stores it once more. *)
Lemma rerun_adds_null_id_rows :
  let archive : ZipFile := [("00_All_Records.csv", Ok (readable [row_no_id]))] in
  let db1 := fst (sync archive empty_db) in
  let db2 := fst (sync archive db1) in
  List.length (properties db1) = 1%nat /\
  List.length (properties db2) = 2%nat /\
  db2 <> db1.
Proof.
  vm_compute. repeat split. discriminate.
Qed.

Lemma build_database_rerun (csv_buffers : list Buffer) db :
  (forall buf row,
     In buf csv_buffers -> In row (table buf) -> row_id row <> PNone) ->
  fst (build_database csv_buffers (fst (build_database csv_buffers db))) =
  fst (build_database csv_buffers db).
Proof.
  intros Hids. rewrite !build_database_run. unfold run_outcome.
  destruct (normalize_all (table (first_chunk csv_buffers))) as [ts|e] eqn:En;
    [|reflexivity].
  destruct (reader_error (first_chunk csv_buffers)); [reflexivity|].
  destruct (is_nil (table (first_chunk csv_buffers))); [reflexivity|].
  cbn [fst]. apply insert_many_idempotent. intros t Ht.
  destruct (normalize_all_origin _ _ _ En Ht) as (row & Hrow & Hn).
  rewrite (normalize_id _ _ Hn).
  apply in_first_chunk_concat, in_concat in Hrow.
  destruct Hrow as (tbl & Htbl & Hin).
  apply in_map_iff in Htbl. destruct Htbl as (buf & <- & Hbuf).
  exact (Hids buf row Hbuf Hin).
Qed.

(** C3, amended.  When every row of the archive's table carries an
    identifier, running [sync] a second time on the same archive leaves the
    database exactly as the first run left it: no record is added. *)
Theorem sync_rerun_idempotent : forall (zip_bytes : ZipFile) db,
  (forall name buf row,
     In (name, Ok buf) zip_bytes -> In row (table buf) -> row_id row <> PNone) ->
  fst (sync zip_bytes (fst (sync zip_bytes db))) = fst (sync zip_bytes db).
Proof.
  intros zip_bytes db Hids. unfold sync.
  destruct (extract_csv_from_zip zip_bytes) as [buf|e] eqn:Ex; [|reflexivity].
  apply build_database_rerun. intros buf' row [<- | []] Hrow.
  unfold extract_csv_from_zip in Ex.
  destruct (namelist zip_bytes) as [|name names]; [discriminate|].
  unfold zf_read in Ex.
  destruct (find _ (rev zip_bytes)) as [[n b]|] eqn:Ef; [|discriminate].
  simpl in Ex. subst b.
  apply find_some in Ef. destruct Ef as [Hin _].
  apply in_rev in Hin. exact (Hids n buf row Hin Hrow).
Qed.

Lemma sync_rerun_idempotent_witness :
  let archive : ZipFile :=
    [("00_All_Records.csv", Ok (readable [row_smith; row_jones]))] in
  fst (sync archive (fst (sync archive empty_db))) = fst (sync archive empty_db).
Proof.
  apply sync_rerun_idempotent.
  intros name buf row [H | []] Hrow. injection H as <- <-.
  destruct Hrow as [<- | [<- | []]]; vm_compute; discriminate.
Defined.

(* ------------------------------------------------------------------ *)
(** ** The abort at the index statement *)

(** C4, as stated, fails: a table whose row has an amount that [float()]
    rejects ends the run with [ValueError] while the row is normalised,
    before anything is inserted, and not at the index statement.  So does,
    with [csv.Error], a buffer that the reader gives up on after its first
    row. *)
Lemma bad_amount_raises_before_commit :
  build_database [readable [row_bad_amount]] empty_db =
    (empty_db, Raise (ValueError "could not convert string to float: 'abc'")) /\
  ~ (exists msg,
       snd (build_database [readable [row_bad_amount]] empty_db) =
       Raise (TypeError msg)) /\
  build_database
    [{| table := [row_smith];
        reader_error := Some "field larger than field limit (131072)" |}]
    empty_db =
    (empty_db, Raise (CsvError "field larger than field limit (131072)")).
Proof.
  split; [vm_compute; reflexivity|]. split; [|vm_compute; reflexivity].
  intros [msg H]. vm_compute in H. discriminate.
Qed.

(** C4, amended.  Take the first buffer on which the reader yields a row
    or raises.  When it yields a row, and the rows read before the first
    flush (its first 10000 rows, or all of them when there are fewer) are
    read without an error of the reader and all normalise,
    [build_database] ends in the [TypeError] of the index statement, raised
    for its missing parameter sequence; by then those rows are committed to
    [properties], and the index has received nothing. *)
Theorem load_aborts_after_commit : forall (csv_buffers : list Buffer) db ts,
  table (first_chunk csv_buffers) <> [] ->
  reader_error (first_chunk csv_buffers) = None ->
  normalize_all (table (first_chunk csv_buffers)) = Ok ts ->
  build_database csv_buffers db = (insert_many ts db, Raise missing_params) /\
  properties_fts (insert_many ts db) = properties_fts db /\
  (forall t, In t ts -> property_id t <> PNone ->
     key_taken (property_id t) (properties (insert_many ts db)) = true).
Proof.
  intros csv_buffers db ts Hne Herr Hn.
  rewrite build_database_run. unfold run_outcome. rewrite Hn, Herr.
  destruct (table (first_chunk csv_buffers)) as [|row0 tbl]; [congruence|].
  split; [reflexivity|]. split; [apply insert_many_fts|].
  intros t Ht Hid. apply insert_many_takes_keys; assumption.
Qed.

Lemma load_aborts_after_commit_witness :
  exists ts,
    build_database [readable [row_smith; row_nbsp_amount; row_jones]] empty_db
    = (insert_many ts empty_db, Raise missing_params).
Proof.
  destruct (normalize_all
              (table (first_chunk
                        [readable [row_smith; row_nbsp_amount; row_jones]])))
    as [ts|e] eqn:En; [|vm_compute in En; discriminate].
  exists ts.
  apply (load_aborts_after_commit
           [readable [row_smith; row_nbsp_amount; row_jones]] empty_db ts).
  - vm_compute. discriminate.
  - vm_compute. reflexivity.
  - exact En.
Defined.

(* ------------------------------------------------------------------ *)
(** ** Normalisation *)

(** C5, as stated, fails: an amount that does not parse is not replaced by
    zero; normalising the row raises [ValueError]. *)
Lemma unparsable_amount_raises :
  normalize row_bad_amount =
    Raise (ValueError "could not convert string to float: 'abc'") /\
  ~ (exists r, normalize row_bad_amount = Ok r /\
               amount_reported r = Some float_zero).
Proof.
  split; [vm_compute; reflexivity|].
  intros (r & H & _). vm_compute in H. discriminate.
Qed.

(** C5, amended.  A row whose AMOUNT_REPORTED is absent, [None] or empty
    normalises with [amount_reported] zero.  A non-empty amount is handed
    to [float()]: text it accepts gives that number, and text it rejects
    makes the normalisation of the row raise the [ValueError] of [float()].
    When such a row is read before the first flush and the rows before it
    normalise, the run ends in that [ValueError] and has written
    nothing. *)
Theorem amount_defaults_to_zero : forall row,
  (dict_lookup row "AMOUNT_REPORTED" = None \/
   dict_lookup row "AMOUNT_REPORTED" = Some PNone \/
   dict_lookup row "AMOUNT_REPORTED" = Some (PStr "") ->
   exists r, normalize row = Ok r /\ amount_reported r = Some float_zero) /\
  (forall s f,
     dict_lookup row "AMOUNT_REPORTED" = Some (PStr s) -> s <> "" ->
     float_of_str s = Some f ->
     exists r, normalize row = Ok r /\ amount_reported r = bind_real f) /\
  (forall s,
     dict_lookup row "AMOUNT_REPORTED" = Some (PStr s) -> s <> "" ->
     float_of_str s = None ->
     normalize row = Raise (not_a_float s) /\
     forall (csv_buffers : list Buffer) db pre post l1,
       table (first_chunk csv_buffers) = pre ++ row :: post ->
       normalize_all pre = Ok l1 ->
       build_database csv_buffers db = (db, Raise (not_a_float s))).
Proof.
  intros row. split; [|split].
  - intros H. unfold normalize, get_or.
    destruct H as [-> | [-> | ->]]; simpl; eexists; split; reflexivity.
  - intros s f Hl Hs Hf. unfold normalize, get_or. rewrite Hl.
    unfold py_or, truthy. apply String.eqb_neq in Hs. rewrite Hs. simpl.
    rewrite Hf. eexists; split; reflexivity.
  - intros s Hl Hs Hf.
    assert (Hrow : normalize row = Raise (not_a_float s)).
    { unfold normalize, get_or. rewrite Hl.
      unfold py_or, truthy. apply String.eqb_neq in Hs. rewrite Hs. simpl.
      rewrite Hf. reflexivity. }
    split; [exact Hrow|].
    intros csv_buffers db pre post l1 Hsplit Hpre.
    rewrite build_database_run. unfold run_outcome.
    rewrite Hsplit, (normalize_all_fails pre row post l1 _ Hpre Hrow).
    reflexivity.
Qed.

Lemma amount_defaults_to_zero_witness :
  (exists r, normalize row_no_id = Ok r /\ amount_reported r = Some float_zero) /\
  (exists r, normalize row_smith = Ok r /\
             amount_reported r = bind_real (FNum 125 (-1))) /\
  build_database [readable [row_smith; row_bad_amount; row_jones]] empty_db =
    (empty_db, Raise (not_a_float "abc")).
Proof.
  split; [|split].
  - apply (proj1 (amount_defaults_to_zero row_no_id)). left. reflexivity.
  - apply (proj1 (proj2 (amount_defaults_to_zero row_smith)) "12.50").
    + reflexivity.
    + discriminate.
    + vm_compute. reflexivity.
  - apply (proj2 (proj2 (proj2 (amount_defaults_to_zero row_bad_amount)) "abc"
                    eq_refl ltac:(discriminate) eq_refl)
             [readable [row_smith; row_bad_amount; row_jones]] empty_db
             [row_smith] [row_jones] [smith_record]).
    + vm_compute. reflexivity.
    + vm_compute. reflexivity.
Defined.

Lemma key_taken_none tbl : key_taken PNone tbl = false.
Proof.
  unfold key_taken. induction tbl as [|x tbl IH]; [reflexivity|].
  simpl. rewrite IH. destruct (property_id (cols x)); reflexivity.
Qed.

Lemma null_keyed_app tbl1 tbl2 :
  null_keyed (tbl1 ++ tbl2) = null_keyed tbl1 ++ null_keyed tbl2.
Proof. unfold null_keyed. apply filter_app. Qed.

(** One insert, seen from the NULL identifier: a tuple without identifier
    is always stored, and no other tuple adds a record without one. *)
Lemma null_keyed_insert_row t db :
  null_keyed (properties (insert_row t db)) =
  null_keyed (properties db) ++
  (if is_null (property_id t)
   then [{| rowid := next_rowid (properties db); cols := t |}] else []).
Proof.
  unfold insert_row. destruct (is_null (property_id t)) eqn:N.
  - destruct (property_id t) eqn:Hid; try discriminate.
    rewrite key_taken_none. simpl. rewrite null_keyed_app.
    unfold null_keyed at 2. simpl. rewrite Hid. reflexivity.
  - destruct (key_taken (property_id t) (properties db));
      [rewrite app_nil_r; reflexivity|].
    simpl. rewrite null_keyed_app. unfold null_keyed at 2. simpl. rewrite N.
    reflexivity.
Qed.

Lemma null_keyed_insert_many ts : forall db,
  List.length (null_keyed (properties (insert_many ts db))) =
  (List.length (null_keyed (properties db)) +
   List.length (filter (fun t => is_null (property_id t)) ts))%nat.
Proof.
  induction ts as [|t ts IH]; intros db.
  - simpl. lia.
  - rewrite insert_many_cons, IH, null_keyed_insert_row, length_app. simpl.
    destruct (is_null (property_id t)); simpl; lia.
Qed.

Lemma normalize_all_null_ids rows : forall ts,
  normalize_all rows = Ok ts ->
  List.length (filter (fun t => is_null (property_id t)) ts) =
  List.length (filter (fun row => is_null (row_id row)) rows).
Proof.
  induction rows as [|row rows IH]; intros ts H.
  - injection H as <-. reflexivity.
  - rewrite normalize_all_cons in H.
    destruct (normalize row) as [t|] eqn:En; [|discriminate].
    destruct (normalize_all rows) as [ts'|]; [|discriminate].
    injection H as <-. simpl. rewrite (normalize_id _ _ En).
    destruct (is_null (row_id row)); simpl; rewrite (IH ts' eq_refl);
      reflexivity.
Qed.

Lemma insert_many_keeps x ts : forall db,
  In x (properties db) -> In x (properties (insert_many ts db)).
Proof.
  induction ts as [|t ts IH]; intros db H; [exact H|].
  rewrite insert_many_cons. apply IH. unfold insert_row.
  destruct (key_taken _ _); [exact H|]. simpl. apply in_or_app. left. exact H.
Qed.

Lemma insert_many_stores_null ts : forall db t,
  In t ts -> property_id t = PNone ->
  exists x, In x (properties (insert_many ts db)) /\ cols x = t.
Proof.
  induction ts as [|t0 ts IH]; intros db t Hin Hid; [destruct Hin|].
  rewrite insert_many_cons. destruct Hin as [-> | Hin].
  - exists {| rowid := next_rowid (properties db); cols := t |}.
    split; [|reflexivity]. apply insert_many_keeps.
    unfold insert_row. rewrite Hid, key_taken_none. simpl.
    apply in_or_app. right. left. reflexivity.
  - apply IH; assumption.
Qed.

Lemma no_id_row row :
  dict_lookup row "PROPERTY_ID" = None ->
  dict_lookup row "Property ID" = None ->
  row_id row = PNone.
Proof.
  intros H1 H2. unfold row_id, get, get_or. rewrite H1, H2. reflexivity.
Qed.

(** C6, as stated, fails: the row [row_no_id] has neither PROPERTY_ID nor
    Property ID, and loading it leaves a record in the store whose
    [property_id] is NULL. *)
Lemma row_without_id_is_stored :
  dict_lookup row_no_id "PROPERTY_ID" = None /\
  dict_lookup row_no_id "Property ID" = None /\
  exists r,
    map cols
      (properties (fst (build_database [readable [row_no_id]] empty_db))) = [r] /\
    property_id r = PNone /\ raw_json r = row_no_id.
Proof.
  split; [reflexivity|]. split; [reflexivity|].
  eexists. vm_compute. repeat split.
Qed.

(** C6, amended.  A row is never dropped for want of an identifier.  When
    a row with no identifier under either header spelling normalises, its
    tuple has a NULL [property_id]; and when a run commits its rows (they
    are read without error before the first flush and all normalise),
    every such row among them is in the store afterwards as a record of
    its own: the records with a NULL identifier have grown by exactly the
    number of rows without identifier. *)
Theorem row_without_id_committed : forall (csv_buffers : list Buffer) db ts,
  reader_error (first_chunk csv_buffers) = None ->
  normalize_all (table (first_chunk csv_buffers)) = Ok ts ->
  (forall row,
     In row (table (first_chunk csv_buffers)) ->
     dict_lookup row "PROPERTY_ID" = None ->
     dict_lookup row "Property ID" = None ->
     exists r x,
       normalize row = Ok r /\ property_id r = PNone /\
       In x (properties (fst (build_database csv_buffers db))) /\ cols x = r) /\
  List.length (null_keyed (properties (fst (build_database csv_buffers db)))) =
  (List.length (null_keyed (properties db)) +
   List.length (filter (fun row => is_null (row_id row))
                       (table (first_chunk csv_buffers))))%nat.
Proof.
  intros csv_buffers db ts Herr Hn.
  rewrite build_database_run. unfold run_outcome. rewrite Hn, Herr.
  destruct (table (first_chunk csv_buffers)) as [|row0 tbl] eqn:Et.
  - injection Hn as <-. split; [intros row []|]. simpl. lia.
  - cbn [is_nil fst]. split.
    + intros row Hin H1 H2.
      destruct (normalize_all_in _ _ _ Hn Hin) as (r & Hr & Hrow).
      assert (Hid : property_id r = PNone).
      { rewrite (normalize_id _ _ Hrow). apply no_id_row; assumption. }
      destruct (insert_many_stores_null ts db r Hr Hid) as (x & Hx & Hc).
      exists r, x. auto.
    + rewrite null_keyed_insert_many, (normalize_all_null_ids _ _ Hn).
      reflexivity.
Qed.

Lemma row_without_id_committed_witness :
  List.length
    (null_keyed
       (properties
          (fst (build_database [readable [row_no_id; row_smith; row_no_id]]
                  (fst (build_database [readable [row_no_id]] empty_db)))))) =
  3%nat.
Proof.
  destruct (normalize_all
              (table (first_chunk [readable [row_no_id; row_smith; row_no_id]])))
    as [ts|e] eqn:En; [|vm_compute in En; discriminate].
  rewrite (proj2 (row_without_id_committed
                    [readable [row_no_id; row_smith; row_no_id]]
                    (fst (build_database [readable [row_no_id]] empty_db))
                    ts eq_refl En)).
  vm_compute. reflexivity.
Defined.

(* ------------------------------------------------------------------ *)
(** ** The two-row scenario *)

(** C7, as stated, fails: after the run the stored owner name is
    ["Smith "], the surname followed by a blank and the absent first name,
    and no search returns [P1]. *)
Lemma scenario_as_stated_fails :
  let db1 := fst (build_database [readable [row_smith; row_jones]] empty_db) in
  ~ ((exists r, snd (get_property "P1" db1) = Ok r /\
                owner_name r = PStr "Smith") /\
     inserted empty_db db1 = 1 /\
     skipped [row_smith; row_jones] empty_db db1 = 1 /\
     (exists rows, snd (search match_all "Smith" 5 db1) = Ok rows /\
                   map property_id rows = [PStr "P1"]) /\
     snd (search match_all "Jones" 5 db1) = Ok []).
Proof.
  intros db1 [(r & Hget & Hname) _].
  vm_compute in Hget. injection Hget as <-.
  vm_compute in Hname. discriminate.
Qed.

(** C7, amended.  Loading the two-row table in one run leaves exactly one
    record for [P1], the first row's: [get_property("P1")] returns it with
    owner name ["Smith "] and amount 12.5, one record was inserted and the
    second row was absorbed as a duplicate. *)
Theorem two_row_scenario :
  let db1 := fst (build_database [readable [row_smith; row_jones]] empty_db) in
  snd (get_property "P1" db1) = Ok smith_record /\
  owner_name smith_record = PStr "Smith " /\
  amount_reported smith_record = Some (FNum 125 (-1)) /\
  normalize row_smith = Ok smith_record /\
  map cols (properties db1) = [smith_record] /\
  inserted empty_db db1 = 1 /\
  skipped [row_smith; row_jones] empty_db db1 = 1.
Proof.
  vm_compute. repeat split.
Qed.

(* ------------------------------------------------------------------ *)
(** ** The query floor *)

Lemma select_search_refused fts5_match q limit db :
  select_search fts5_match q limit db =
  Raise (OperationalError "no such column: fts").
Proof. reflexivity. Qed.

(** C8.  [search] answers with the 400 "Query too short" error exactly when
    the query has fewer than two characters.  It does so without opening
    the database: the outcome is that error whatever the store and index
    hold.  A query of two or more characters passes the guard and the
    outcome of [search] is the outcome of the index query. *)
Theorem query_floor :
  forall (fts5_match : string -> FtsRow -> bool) (q : string) (limit : Z) db,
  (snd (search fts5_match q limit db) = Raise query_too_short <->
   (String.length q < 2)%nat) /\
  ((String.length q < 2)%nat ->
   search fts5_match q limit db = (db, Raise query_too_short)) /\
  ((2 <= String.length q)%nat ->
   search fts5_match q limit db = (db, select_search fts5_match q limit db)).
Proof.
  intros fts5_match q limit db. unfold search.
  destruct (String.length q <? 2)%nat eqn:E.
  - apply Nat.ltb_lt in E. split; [|split].
    + split; [intros _; exact E | reflexivity].
    + reflexivity.
    + intros H. lia.
  - apply Nat.ltb_ge in E. split; [|split].
    + rewrite select_search_refused. simpl. split; [discriminate | lia].
    + intros H. lia.
    + intros _. cbv zeta.
      change (working (get_conn db)) with db.
      change (close (get_conn db)) with db.
      destruct (select_search fts5_match q limit db); reflexivity.
Qed.

Lemma query_floor_witness :
  search match_all "a" 10 empty_db = (empty_db, Raise query_too_short) /\
  search match_all "ab" 10 empty_db =
    (empty_db, select_search match_all "ab" 10 empty_db) /\
  snd (search match_all "ab" 10 empty_db) <> Raise query_too_short.
Proof.
  split; [|split].
  - apply (proj1 (proj2 (query_floor match_all "a" 10 empty_db))).
    simpl. lia.
  - apply (proj2 (proj2 (query_floor match_all "ab" 10 empty_db))).
    simpl. lia.
  - intros H.
    apply (proj1 (proj1 (query_floor match_all "ab" 10 empty_db))) in H.
    simpl in H. lia.
Defined.

(* ------------------------------------------------------------------ *)
(** ** The empty archive *)

(** C9, as stated, fails: on an archive with no member the error raised is
    Python's [IndexError], from taking element 0 of the empty name list;
    no error of class [ArchiveEmpty] is raised. *)
Lemma empty_archive_not_archive_empty :
  extract_csv_from_zip [] = Raise (IndexError "list index out of range") /\
  ~ (exists e, extract_csv_from_zip [] = Raise e /\
               exc_class e = "ArchiveEmpty").
Proof.
  split; [reflexivity|].
  intros (e & H & Hc). injection H as <-. discriminate.
Qed.

(** C9, amended.  Opening the first table of an archive that has no member
    fails with [IndexError]. *)
Theorem empty_archive_index_error : forall zip_bytes : ZipFile,
  namelist zip_bytes = [] ->
  extract_csv_from_zip zip_bytes = Raise (IndexError "list index out of range") /\
  forall db, sync zip_bytes db = (db, Raise (IndexError "list index out of range")).
Proof.
  intros zip_bytes H.
  assert (E : extract_csv_from_zip zip_bytes =
              Raise (IndexError "list index out of range")).
  { unfold extract_csv_from_zip. rewrite H. reflexivity. }
  split; [exact E|]. intros db. unfold sync. rewrite E. reflexivity.
Qed.

Lemma empty_archive_index_error_witness :
  extract_csv_from_zip [] = Raise (IndexError "list index out of range").
Proof.
  apply (proj1 (empty_archive_index_error [] eq_refl)).
Defined.

(* ------------------------------------------------------------------ *)
(** ** The claim endpoint *)

(** C10.  [start_claim] writes nothing: the database after the call is the
    database before it, store and index alike.  It returns the
    acknowledgement with the record when the store has the payload's
    identifier, and raises the 404 error when it has not. *)
Theorem start_claim_reads_only : forall (payload : ClaimRequest) db,
  start_claim payload db =
  (db, match select_by_id (claim_property_id payload) db with
       | Some prop => Ok ("Claim initiated", prop)
       | None => Raise not_found
       end).
Proof.
  intros payload db. unfold start_claim. rewrite get_property_eq.
  destruct (select_by_id (claim_property_id payload) db); reflexivity.
Qed.


(* ------------------------------------------------------------------ *)
(** ** Further properties of the loader *)

Lemma insert_many_appends ts : forall db,
  exists added,
    properties (insert_many ts db) = properties db ++ added /\
    (List.length added <= List.length ts)%nat /\
    forall x, In x added -> In (cols x) ts.
Proof.
  induction ts as [|t ts IH]; intros db.
  - exists []. simpl. rewrite app_nil_r. repeat split; [lia | intros x []].
  - rewrite insert_many_cons.
    destruct (IH (insert_row t db)) as (added & Hp & Hlen & Hin).
    unfold insert_row in Hp.
    destruct (key_taken (property_id t) (properties db)) eqn:E.
    + exists added. unfold insert_row. rewrite E.
      split; [exact Hp|]. split; [simpl; lia|].
      intros x Hx. right. apply Hin, Hx.
    + exists ({| rowid := next_rowid (properties db); cols := t |} :: added).
      unfold insert_row. rewrite E. simpl in Hp. rewrite <- app_assoc in Hp.
      split; [exact Hp|]. split; [simpl; lia|].
      intros x [<- | Hx]; [left; reflexivity | right; apply Hin, Hx].
Qed.

(** X1.  A run only appends to the store.  The records present before
    [build_database] keep their place, rowid and contents; what follows
    them afterwards are at most 10000 new records, each the normalisation
    of a row of the input; and the index is left as it was. *)
Theorem store_is_append_only : forall (csv_buffers : list Buffer) db,
  exists added,
    properties (fst (build_database csv_buffers db)) = properties db ++ added /\
    Z.of_nat (List.length added) <= 10000 /\
    (forall x, In x added ->
       exists row,
         In row (List.concat (map table csv_buffers)) /\
         normalize row = Ok (cols x)).
Proof.
  intros csv_buffers db. rewrite build_database_run. unfold run_outcome.
  assert (Hnone : exists added : list StoreRow,
             properties db = properties db ++ added /\
             Z.of_nat (List.length added) <= 10000 /\
             (forall x, In x added ->
                exists row,
                  In row (List.concat (map table csv_buffers)) /\
                  normalize row = Ok (cols x))).
  { exists []. rewrite app_nil_r. repeat split; [simpl; lia | intros x []]. }
  destruct (normalize_all (table (first_chunk csv_buffers))) as [ts|e] eqn:En;
    [|exact Hnone].
  destruct (reader_error (first_chunk csv_buffers)); [exact Hnone|].
  destruct (is_nil (table (first_chunk csv_buffers))); [exact Hnone|].
  destruct (insert_many_appends ts db) as (added & Hp & Hlen & Hin).
  exists added. cbn [fst]. split; [exact Hp|]. split.
  - pose proof (normalize_all_length _ _ En).
    pose proof (first_chunk_length csv_buffers). lia.
  - intros x Hx.
    destruct (normalize_all_origin _ _ _ En (Hin x Hx)) as (row & Hrow & Hn).
    exists row. split; [apply in_first_chunk_concat, Hrow | exact Hn].
Qed.

Lemma idle_spec buf :
  idle buf = true <-> table buf = [] /\ reader_error buf = None.
Proof.
  unfold idle. destruct (table buf), (reader_error buf); simpl;
    split; try discriminate; try (intros [H1 H2]; discriminate); auto.
Qed.

(** X2.  [build_database] returns normally exactly when the reader of
    every buffer yields no row and raises no error, and then both tables
    hold what they held before the call.  Any input with a row, or with a
    buffer the reader fails on, ends the call in an exception. *)
Theorem completes_iff_no_rows : forall (csv_buffers : list Buffer) db,
  (snd (build_database csv_buffers db) = Ok tt <->
   forall buf, In buf csv_buffers ->
     table buf = [] /\ reader_error buf = None) /\
  (snd (build_database csv_buffers db) = Ok tt ->
   fst (build_database csv_buffers db) = db).
Proof.
  intros csv_buffers db.
  assert (Hidle : (forall buf, In buf csv_buffers ->
                     table buf = [] /\ reader_error buf = None) <->
                  idle (first_chunk csv_buffers) = true).
  { unfold first_chunk. rewrite chunk_of_idle, first_buffer_idle. split.
    - intros H buf Hb. apply idle_spec, H, Hb.
    - intros H buf Hb. apply idle_spec, H, Hb. }
  rewrite Hidle, build_database_run. unfold run_outcome, idle.
  destruct (normalize_all (table (first_chunk csv_buffers))) as [ts|e] eqn:En.
  - destruct (reader_error (first_chunk csv_buffers)); cbn [snd fst is_none].
    + rewrite andb_false_r. split; [split; discriminate | discriminate].
    + rewrite andb_true_r.
      destruct (is_nil (table (first_chunk csv_buffers))); cbn [snd fst].
      * split; [split; reflexivity | reflexivity].
      * split; [split; discriminate | discriminate].
  - cbn [snd fst]. split; [|discriminate]. split; [discriminate|].
    intros H. apply andb_prop in H. destruct H as [Ht _].
    destruct (table (first_chunk csv_buffers)); [|discriminate].
    discriminate.
Qed.

Lemma completes_iff_no_rows_witness :
  build_database [readable []; readable []]
    (fst (build_database [readable [row_smith]] empty_db)) =
  (fst (build_database [readable [row_smith]] empty_db), Ok tt).
Proof.
  pose proof (completes_iff_no_rows [readable []; readable []]
                (fst (build_database [readable [row_smith]] empty_db)))
    as [Hiff Hdb].
  assert (Hok : snd (build_database [readable []; readable []]
                       (fst (build_database [readable [row_smith]] empty_db)))
                = Ok tt).
  { apply Hiff. intros buf [<- | [<- | []]]; split; reflexivity. }
  specialize (Hdb Hok).
  destruct (build_database [readable []; readable []]
              (fst (build_database [readable [row_smith]] empty_db)))
    as [d r].
  cbn [fst snd] in Hok, Hdb. rewrite Hok, Hdb. reflexivity.
Defined.

Lemma lookup_in row : forall key v, dict_lookup row key = Some v -> In (key, v) row.
Proof.
  induction row as [|[k0 v0] row IH]; intros key v H; [discriminate|].
  simpl in H. destruct (String.eqb k0 key) eqn:E.
  - apply String.eqb_eq in E. injection H as <-. left. congruence.
  - right. apply IH, H.
Qed.

Lemma normalize_raises row e :
  cells_are_text row ->
  normalize row = Raise e ->
  exists s, dict_lookup row "AMOUNT_REPORTED" = Some (PStr s) /\ e = not_a_float s.
Proof.
  intros Htext. unfold normalize, py_or, get_or.
  destruct (dict_lookup row "AMOUNT_REPORTED") as [[|s|z]|] eqn:El; simpl.
  - discriminate.
  - destruct (negb (s =? "")%string); simpl; [|discriminate].
    destruct (float_of_str s); [discriminate|].
    intros H. injection H as <-. exists s. split; reflexivity.
  - exfalso. apply (Htext "AMOUNT_REPORTED" z), lookup_in, El.
  - discriminate.
Qed.

Lemma normalize_all_raises rows : forall e,
  (forall row, In row rows -> cells_are_text row) ->
  normalize_all rows = Raise e ->
  exists s, e = not_a_float s.
Proof.
  induction rows as [|row rows IH]; intros e Htext H; [discriminate|].
  rewrite normalize_all_cons in H.
  destruct (normalize row) as [t|e0] eqn:En.
  - destruct (normalize_all rows) as [ts|e1]; [discriminate|].
    injection H as <-. apply IH; [|reflexivity].
    intros r Hr. apply Htext. right. exact Hr.
  - injection H as <-.
    destruct (normalize_raises row e0 (Htext row (or_introl eq_refl)) En)
      as (s & _ & ->).
    exists s. reflexivity.
Qed.

(** X3.  On rows whose cells are text or [None], as the reader makes them,
    [build_database] can end in three exceptions only.  Two are raised
    while rows are read, the [ValueError] of [float()] on an amount and the
    [csv.Error] of the reader, and then nothing has been written: both
    tables hold what they held.  The third is the [TypeError] of the index
    statement. *)
Theorem build_database_raises_only : forall (csv_buffers : list Buffer) db e,
  (forall buf row,
     In buf csv_buffers -> In row (table buf) -> cells_are_text row) ->
  snd (build_database csv_buffers db) = Raise e ->
  e = missing_params \/
  (((exists s, e = not_a_float s) \/ (exists msg, e = CsvError msg)) /\
   fst (build_database csv_buffers db) = db).
Proof.
  intros csv_buffers db e Htext. rewrite build_database_run. unfold run_outcome.
  destruct (normalize_all (table (first_chunk csv_buffers))) as [ts|e0] eqn:En.
  - destruct (reader_error (first_chunk csv_buffers)) as [msg|]; cbn [snd fst].
    + intros H. injection H as <-. right. split; [|reflexivity].
      right. exists msg. reflexivity.
    + destruct (is_nil (table (first_chunk csv_buffers))); cbn [snd fst];
        [discriminate|].
      intros H. injection H as <-. left. reflexivity.
  - cbn [snd fst]. intros H. injection H as <-. right. split; [|reflexivity].
    left. apply (normalize_all_raises _ _) with (2 := En).
    intros row Hrow. apply in_first_chunk_concat, in_concat in Hrow.
    destruct Hrow as (tbl & Htbl & Hin).
    apply in_map_iff in Htbl. destruct Htbl as (buf & <- & Hbuf).
    exact (Htext buf row Hbuf Hin).
Qed.

Lemma build_database_raises_only_witness :
  not_a_float "abc" = missing_params \/
  (((exists s, not_a_float "abc" = not_a_float s) \/
    (exists msg, not_a_float "abc" = CsvError msg)) /\
   fst (build_database [readable [row_smith; row_bad_amount]] empty_db) =
   empty_db).
Proof.
  apply (build_database_raises_only [readable [row_smith; row_bad_amount]]
           empty_db).
  - intros buf row [<- | []] [<- | [<- | []]] k z H;
      repeat (destruct H as [H | H]; [discriminate|]); destruct H.
  - vm_compute. reflexivity.
Defined.

Lemma chunk_of_chunk buf : chunk_of (chunk_of buf) = chunk_of buf.
Proof.
  unfold chunk_of. cbn [table reader_error].
  generalize (Z.to_nat 10000). intros k.
  rewrite firstn_firstn, Nat.min_id.
  destruct (k <=? List.length (table buf))%nat eqn:E.
  - destruct (k <=? List.length (firstn k (table buf)))%nat; reflexivity.
  - apply Nat.leb_gt in E. rewrite (firstn_all2 (table buf)) by lia.
    apply Nat.leb_gt in E. rewrite E. reflexivity.
Qed.

(** X4.  Only the rows read before the first flush count: a call of
    [build_database] does what it would do on the single buffer made of the
    first 10000 rows of its first non-empty buffer.  Rows past the 10000th
    and all later buffers change neither the database nor the outcome. *)
Theorem only_first_chunk_is_loaded : forall (csv_buffers : list Buffer) db,
  build_database csv_buffers db = build_database [first_chunk csv_buffers] db.
Proof.
  intros csv_buffers db. rewrite !build_database_run. f_equal.
  unfold first_chunk at 2. cbn [first_buffer].
  destruct (idle (first_chunk csv_buffers)) eqn:E.
  - apply idle_spec in E. destruct E as [Ht He].
    destruct (first_chunk csv_buffers) as [t r]. cbn [table reader_error] in *.
    subst. reflexivity.
  - unfold first_chunk. rewrite chunk_of_chunk. reflexivity.
Qed.

(* ------------------------------------------------------------------ *)
(** ** Invariants of the store *)

Lemma insert_row_keeps_unique t db :
  (forall pid, (List.length (matching pid (properties db)) <= 1)%nat) ->
  forall pid, (List.length (matching pid (properties (insert_row t db))) <= 1)%nat.
Proof.
  intros H pid. rewrite matching_insert_row.
  destruct (same_key (property_id t) (PStr pid)); [|apply H].
  specialize (H pid). destruct (matching pid (properties db)); simpl in *; lia.
Qed.

Lemma insert_many_keeps_unique ts : forall db,
  (forall pid, (List.length (matching pid (properties db)) <= 1)%nat) ->
  forall pid, (List.length (matching pid (properties (insert_many ts db))) <= 1)%nat.
Proof.
  induction ts as [|t ts IH]; intros db H; [exact H|].
  rewrite insert_many_cons. apply IH, insert_row_keeps_unique, H.
Qed.

(** X5.  The primary key stays a key.  If no identifier is stored under
    more than one record before a run of [build_database], none is
    afterwards, whatever duplicates the input holds. *)
Theorem identifiers_stay_unique : forall (csv_buffers : list Buffer) db,
  (forall pid, (List.length (matching pid (properties db)) <= 1)%nat) ->
  forall pid,
    (List.length
       (matching pid (properties (fst (build_database csv_buffers db)))) <= 1)%nat.
Proof.
  intros csv_buffers db H. rewrite build_database_run. unfold run_outcome.
  destruct (normalize_all (table (first_chunk csv_buffers))) as [ts|e];
    [|exact H].
  destruct (reader_error (first_chunk csv_buffers)); [exact H|].
  destruct (is_nil (table (first_chunk csv_buffers))); [exact H|].
  cbn [fst]. apply insert_many_keeps_unique, H.
Qed.

Lemma identifiers_stay_unique_witness :
  (List.length
     (matching "P1"
        (properties
           (fst (build_database [readable [row_smith; row_jones; row_smith]]
                   empty_db)))) <= 1)%nat.
Proof.
  apply (identifiers_stay_unique [readable [row_smith; row_jones; row_smith]]
           empty_db).
  intros pid. simpl. lia.
Defined.

Lemma rowid_below_next tbl x : In x tbl -> rowid x < next_rowid tbl.
Proof.
  unfold next_rowid. induction tbl as [|y tbl IH]; intros H; [destruct H|].
  cbn [fold_right]. destruct H as [-> | H]; [lia|]. specialize (IH H). lia.
Qed.

Lemma insert_row_keeps_rowids t db :
  NoDup (map rowid (properties db)) ->
  NoDup (map rowid (properties (insert_row t db))).
Proof.
  intros H. unfold insert_row.
  destruct (key_taken (property_id t) (properties db)); [exact H|].
  simpl. rewrite map_app. apply NoDup_app; [exact H | |].
  - simpl. constructor; [intros [] | constructor].
  - intros a Ha [<- | []]. apply in_map_iff in Ha.
    destruct Ha as (x & Hx & Hin). apply rowid_below_next in Hin.
    cbn [rowid] in Hx. lia.
Qed.

Lemma insert_many_keeps_rowids ts : forall db,
  NoDup (map rowid (properties db)) ->
  NoDup (map rowid (properties (insert_many ts db))).
Proof.
  induction ts as [|t ts IH]; intros db H; [exact H|].
  rewrite insert_many_cons. apply IH, insert_row_keeps_rowids, H.
Qed.

(** X6.  Rowids stay distinct.  If no two records of the store share a
    rowid before a run of [build_database], none do afterwards: a new
    record always receives a rowid above every rowid in use. *)
Theorem rowids_stay_distinct : forall (csv_buffers : list Buffer) db,
  NoDup (map rowid (properties db)) ->
  NoDup (map rowid (properties (fst (build_database csv_buffers db)))).
Proof.
  intros csv_buffers db H. rewrite build_database_run. unfold run_outcome.
  destruct (normalize_all (table (first_chunk csv_buffers))) as [ts|e];
    [|exact H].
  destruct (reader_error (first_chunk csv_buffers)); [exact H|].
  destruct (is_nil (table (first_chunk csv_buffers))); [exact H|].
  cbn [fst]. apply insert_many_keeps_rowids, H.
Qed.

Lemma rowids_stay_distinct_witness :
  NoDup (map rowid
           (properties
              (fst (build_database [readable [row_no_id; row_smith; row_no_id]]
                      empty_db)))).
Proof.
  apply (rowids_stay_distinct [readable [row_no_id; row_smith; row_no_id]]
           empty_db).
  simpl. constructor.
Defined.

(* ------------------------------------------------------------------ *)
(** ** Lookup *)

(** X7.  [get_property] against the database file.  A record it returns
    is a record of the store whose identifier is the one asked for.  It
    raises the 404 error only when the tables exist and no record of the
    store has that identifier.  On a file that is missing or has no
    tables it raises SQLite's "no such table" error and leaves a file
    without tables.  Records stored with a NULL identifier are never
    returned. *)
Theorem get_property_sound : forall pid file,
  (forall r, snd (get_property_file pid file) = Ok r ->
     exists db,
       file = Built db /\ fst (get_property_file pid file) = file /\
       property_id r = PStr pid /\
       exists x, In x (properties db) /\ cols x = r) /\
  (forall e, snd (get_property_file pid file) = Raise e ->
     (e = not_found /\
      exists db,
        file = Built db /\ fst (get_property_file pid file) = file /\
        forall x, In x (properties db) -> property_id (cols x) <> PStr pid) \/
     (e = no_such_table /\ (file = NoFile \/ file = NoTables) /\
      fst (get_property_file pid file) = NoTables)).
Proof.
  intros pid file. destruct file as [| |db]; cbn [get_property_file fst snd].
  - split; [intros r H; discriminate|].
    intros e H. injection H as <-. right. auto.
  - split; [intros r H; discriminate|].
    intros e H. injection H as <-. right. auto.
  - rewrite get_property_eq. cbn [fst snd]. unfold select_by_id.
    destruct (find _ (properties db)) as [x|] eqn:Ef; simpl; split.
    + intros r H. injection H as <-. apply find_some in Ef.
      destruct Ef as [Hin Hk]. exists db. split; [reflexivity|].
      split; [reflexivity|]. split; [apply same_key_str, Hk|].
      exists x. split; [exact Hin | reflexivity].
    + intros e H. discriminate.
    + intros r H. discriminate.
    + intros e H. injection H as <-. left. split; [reflexivity|].
      exists db. split; [reflexivity|]. split; [reflexivity|].
      intros x Hin Heq. pose proof (find_none _ _ Ef x Hin) as Hk.
      simpl in Hk. rewrite Heq in Hk. simpl in Hk.
      rewrite String.eqb_refl in Hk. discriminate.
Qed.

Lemma get_property_sound_witness :
  (exists db,
     Built (fst (build_database [readable [row_smith]] empty_db)) = Built db /\
     fst (get_property_file "P1"
            (Built (fst (build_database [readable [row_smith]] empty_db)))) =
     Built (fst (build_database [readable [row_smith]] empty_db)) /\
     property_id smith_record = PStr "P1" /\
     exists x, In x (properties db) /\ cols x = smith_record) /\
  ((no_such_table = not_found /\
    exists db,
      NoFile = Built db /\ fst (get_property_file "P1" NoFile) = NoFile /\
      forall x, In x (properties db) -> property_id (cols x) <> PStr "P1") \/
   (no_such_table = no_such_table /\ (NoFile = NoFile \/ NoFile = NoTables) /\
    fst (get_property_file "P1" NoFile) = NoTables)).
Proof.
  split.
  - apply (proj1 (get_property_sound "P1"
                    (Built (fst (build_database [readable [row_smith]]
                                   empty_db))))).
    vm_compute. reflexivity.
  - apply (proj2 (get_property_sound "P1" NoFile)). reflexivity.
Defined.

Lemma key_taken_select pid db :
  key_taken (PStr pid) (properties db) = true ->
  exists r, select_by_id pid db = Some r /\ property_id r = PStr pid.
Proof.
  unfold key_taken, select_by_id. destruct db as [tbl fts]. simpl.
  induction tbl as [|x tbl IH]; simpl; [discriminate|].
  destruct (same_key (property_id (cols x)) (PStr pid)) eqn:K; simpl.
  - intros _. exists (cols x). split; [reflexivity | apply same_key_str, K].
  - exact IH.
Qed.

(** X8.  What a run commits can be looked up.  When the rows read before
    the first flush are read without an error of the reader and all
    normalise, every one of them that carries an identifier is answered by
    [get_property] after the run, with a record of that identifier. *)
Theorem committed_rows_are_retrievable :
  forall (csv_buffers : list Buffer) db ts row pid,
  reader_error (first_chunk csv_buffers) = None ->
  normalize_all (table (first_chunk csv_buffers)) = Ok ts ->
  In row (table (first_chunk csv_buffers)) ->
  row_id row = PStr pid ->
  exists r,
    snd (get_property pid (fst (build_database csv_buffers db))) = Ok r /\
    property_id r = PStr pid.
Proof.
  intros csv_buffers db ts row pid Herr Hn Hin Hid.
  rewrite get_property_eq, build_database_run. unfold run_outcome.
  rewrite Hn, Herr.
  destruct (table (first_chunk csv_buffers)) as [|row0 tbl] eqn:Et;
    [destruct Hin|].
  cbn [is_nil fst snd].
  destruct (normalize_all_in _ _ _ Hn Hin) as (t & Ht & Hrow).
  assert (Hk : key_taken (PStr pid) (properties (insert_many ts db)) = true).
  { rewrite <- Hid, <- (normalize_id _ _ Hrow).
    apply insert_many_takes_keys; [exact Ht|].
    rewrite (normalize_id _ _ Hrow), Hid. discriminate. }
  destruct (key_taken_select _ _ Hk) as (r & Hsel & Hr).
  exists r. rewrite Hsel. split; [reflexivity | exact Hr].
Qed.

Lemma committed_rows_are_retrievable_witness :
  exists r,
    snd (get_property "P7"
           (fst (build_database [readable [row_smith; row_alt_id]] empty_db)))
    = Ok r /\
    property_id r = PStr "P7".
Proof.
  destruct (normalize_all
              (table (first_chunk [readable [row_smith; row_alt_id]])))
    as [ts|e] eqn:En; [|vm_compute in En; discriminate].
  apply (committed_rows_are_retrievable [readable [row_smith; row_alt_id]]
           empty_db ts row_alt_id "P7").
  - vm_compute. reflexivity.
  - exact En.
  - vm_compute. right. left. reflexivity.
  - vm_compute. reflexivity.
Defined.

(* ------------------------------------------------------------------ *)
(** ** Repeated runs *)

(** X9.  Any number of re-runs.  When every row of the buffers carries an
    identifier, running [build_database] over them any number of times,
    once or more, leaves the database file as a single run leaves it. *)
Theorem reruns_change_nothing : forall (csv_buffers : list Buffer) db n,
  (forall buf row,
     In buf csv_buffers -> In row (table buf) -> row_id row <> PNone) ->
  runs (S n) csv_buffers db = runs 1 csv_buffers db.
Proof.
  intros csv_buffers db n Hids. induction n as [|n IH]; [reflexivity|].
  change (runs (S (S n)) csv_buffers db)
    with (fst (build_database csv_buffers (runs (S n) csv_buffers db))).
  rewrite IH. change (runs 1 csv_buffers db)
    with (fst (build_database csv_buffers db)).
  apply build_database_rerun, Hids.
Qed.

Lemma reruns_change_nothing_witness :
  runs 4 [readable [row_smith; row_alt_id; row_jones]] empty_db =
  runs 1 [readable [row_smith; row_alt_id; row_jones]] empty_db.
Proof.
  apply (reruns_change_nothing [readable [row_smith; row_alt_id; row_jones]]
           empty_db 3).
  intros buf row [<- | []] [<- | [<- | [<- | []]]]; vm_compute; discriminate.
Defined.

(* ------------------------------------------------------------------ *)
(** ** The archive *)

Lemma find_all_false {A} (f : A -> bool) l :
  (forall x, In x l -> f x = false) -> find f l = None.
Proof.
  induction l as [|y l IH]; intros H; [reflexivity|].
  simpl. rewrite (H y (or_introl eq_refl)). apply IH.
  intros x Hx. apply H. right. exact Hx.
Qed.

Lemma find_app_miss {A} (f : A -> bool) l1 l2 :
  find f l1 = None -> find f (l1 ++ l2) = find f l2.
Proof.
  induction l1 as [|y l1 IH]; simpl; [reflexivity|].
  destruct (f y); [discriminate | exact IH].
Qed.

(** X10.  On an archive with at least one member, what
    [extract_csv_from_zip] gives is what reading a member that bears the
    first listed name gives: that member's buffer, or the exception of the
    read when the member cannot be read.  It raises no [IndexError] and no
    [KeyError] of its own. *)
Theorem extract_reads_first_name :
  forall name (m : result Buffer) (rest : ZipFile),
  In (name, extract_csv_from_zip ((name, m) :: rest)) ((name, m) :: rest).
Proof.
  intros name m rest. unfold extract_csv_from_zip.
  cbn [namelist map fst]. unfold zf_read.
  destruct (find (fun m0 => (fst m0 =? name)%string) (rev ((name, m) :: rest)))
    as [[n read]|] eqn:Ef.
  - apply find_some in Ef. destruct Ef as [Hin Hn]. simpl in Hn.
    apply String.eqb_eq in Hn. subst n. simpl. apply in_rev in Hin. exact Hin.
  - exfalso. pose proof (find_none _ _ Ef (name, m)) as H.
    simpl in H. rewrite String.eqb_refl in H.
    assert (true = false) by (apply H; apply in_or_app; right; left; reflexivity).
    discriminate.
Qed.

(** X11.  [sync] ingests one member only.  When no later member of the
    archive repeats the first member's name, [sync] does exactly what
    [build_database] does on the first member's table alone; the other
    members are never read. *)
Theorem sync_loads_first_member : forall name (t : Buffer) (rest : ZipFile) db,
  ~ In name (namelist rest) ->
  sync ((name, Ok t) :: rest) db = build_database [t] db.
Proof.
  intros name t rest db Hfresh. unfold sync, extract_csv_from_zip.
  cbn [namelist map fst]. unfold zf_read. cbn [rev].
  rewrite find_app_miss.
  - simpl. rewrite String.eqb_refl. reflexivity.
  - apply find_all_false. intros [n b] Hin. simpl.
    apply String.eqb_neq. intros ->. apply Hfresh.
    apply in_rev in Hin. unfold namelist.
    apply in_map_iff. exists (name, b). split; [reflexivity | exact Hin].
Qed.

Lemma sync_loads_first_member_witness :
  sync [("00_All_Records.csv", Ok (readable [row_smith]));
        ("readme.txt", Raise (BadZipFile "Bad CRC-32 for file 'readme.txt'"))]
       empty_db =
  build_database [readable [row_smith]] empty_db.
Proof.
  apply (sync_loads_first_member "00_All_Records.csv" (readable [row_smith])
           [("readme.txt", Raise (BadZipFile "Bad CRC-32 for file 'readme.txt'"))]
           empty_db).
  intros [H | []]. discriminate.
Defined.

(* ------------------------------------------------------------------ *)
(** ** The identifier of a row *)

(** X12.  Header priority for the identifier.  A non-empty PROPERTY_ID cell
    is the record's identifier whatever the row holds under Property ID;
    when PROPERTY_ID is absent, [None] or empty, the identifier is what the
    row holds under Property ID ([None] when that is absent too). *)
Theorem identifier_header_priority : forall row r,
  normalize row = Ok r ->
  (forall s, dict_lookup row "PROPERTY_ID" = Some (PStr s) -> s <> "" ->
     property_id r = PStr s) /\
  (dict_lookup row "PROPERTY_ID" = None \/
   dict_lookup row "PROPERTY_ID" = Some PNone \/
   dict_lookup row "PROPERTY_ID" = Some (PStr "") ->
   property_id r = get row "Property ID").
Proof.
  intros row r Hn. rewrite (normalize_id _ _ Hn).
  unfold row_id, py_or. split.
  - intros s Hl Hs. unfold get at 1 2, get_or. rewrite Hl. simpl.
    apply String.eqb_neq in Hs. rewrite Hs. reflexivity.
  - intros [Hl | [Hl | Hl]]; unfold get at 1 2, get_or; rewrite Hl; reflexivity.
Qed.

Lemma identifier_header_priority_witness :
  property_id smith_record = PStr "P1" /\
  exists r, normalize row_alt_id = Ok r /\ property_id r = PStr "P7".
Proof.
  split.
  - apply (proj1 (identifier_header_priority row_smith smith_record
                    normalize_smith) "P1").
    + reflexivity.
    + discriminate.
  - destruct (normalize row_alt_id) as [r|e] eqn:En;
      [|vm_compute in En; discriminate].
    exists r. split; [reflexivity|].
    rewrite (proj2 (identifier_header_priority row_alt_id r En)).
    + reflexivity.
    + right. right. reflexivity.
Defined.
